(** * FastAPI To-Do list: a shallow embedding of [app/main.py]

    The service keeps one relational table of tasks and exposes six routes.
    Each route is modelled in two layers, as FastAPI runs it:

    - the _endpoint_ ([post_tasks], [get_tasks_endpoint], [put_task],
      [patch_task], ...) receives the raw request, runs the input validation
      that the handler's signature declares (pydantic models, [Query(le=20)])
      and, when validation passes, calls the handler;
    - the _handler_ ([create_task], [get_tasks], [get_task], [update_task],
      [partial_update], [delete_task]) is the Python function of the same
      name, with the session replaced by the table it reads and writes.

    The table is a list of rows; SQL statements issued through the session
    are list functions on it.  An integer handed to SQLite as a statement
    parameter (an id, an offset, a limit) must fit its signed 64-bit INTEGER:
    the driver raises [OverflowError] when it does not. *)

From Stdlib Require Import ZArith List String Bool Lia Permutation Sorted.
Import ListNotations.
Open Scope string_scope.
Open Scope Z_scope.
Open Scope list_scope.

(** ** Outcomes

    A request either produces a value or raises.  [HTTPException] is what the
    handlers raise themselves; [RequestValidationError] is FastAPI's rejection
    of a request before the handler runs (status 422); [ValidationError]
    (pydantic, raised inside a handler), [AttributeError] and [OverflowError]
    (raised by the SQLite driver when it binds a parameter) are not caught by
    anything in the application and surface as an internal server error. *)

Inductive Error : Type :=
| HTTPException (status_code : Z) (detail : string)
| RequestValidationError
| ValidationError
| AttributeError
| OverflowError.

Inductive Result (A : Type) : Type :=
| Ok (a : A)
| Raise (e : Error).

Arguments Ok {A} a.
Arguments Raise {A} e.

Definition bind {A B : Type} (r : Result A) (k : A -> Result B) : Result B :=
  match r with
  | Ok a => k a
  | Raise e => Raise e
  end.

Notation "x <- r ;; k" := (bind r (fun x => k))
  (at level 61, r at next level, right associativity).

(** ** Data model *)

(** A [datetime.date], as its proleptic Gregorian ordinal: only the order of
    dates matters to the service. *)
Definition date : Type := Z.

(** [class TaskCreate(BaseModel)]: [title: str],
    [completed: Optional[bool] = False], [created_at: Optional[date] = None]. *)
Module TaskCreate.
Record t : Type := mk {
  title : string;
  completed : option bool;
  created_at : option date
}.
End TaskCreate.

(** [class UpdateTask(BaseModel)]: [title: str], [completed: bool]. *)
Module UpdateTask.
Record t : Type := mk {
  title : string;
  completed : bool
}.
End UpdateTask.

(** [class Task(SQLModel, table=True)]: [id: Optional[int]] (primary key,
    [None] until the row is inserted), [title: str], [completed: bool],
    [created_at: date]. *)
Module Task.
Record t : Type := mk {
  id : option Z;
  title : string;
  completed : bool;
  created_at : date
}.

Definition set_id (i : Z) (r : t) : t :=
  mk (Some i) (title r) (completed r) (created_at r).
Definition set_title (s : string) (r : t) : t :=
  mk (id r) s (completed r) (created_at r).
Definition set_completed (b : bool) (r : t) : t :=
  mk (id r) (title r) b (created_at r).
End Task.

(** ** Request bodies and their validation

    A JSON body field is absent, [null], or carries a value of the field's
    type (bodies with ill-typed values are left out of the model). *)

Inductive Field (A : Type) : Type :=
| Absent
| Null
| Present (a : A).

Arguments Absent {A}.
Arguments Null {A}.
Arguments Present {A} a.

(** A field annotated with a plain type ([str], [bool]) and no default. *)
Definition required {A : Type} (f : Field A) : Result A :=
  match f with
  | Present a => Ok a
  | Absent | Null => Raise RequestValidationError
  end.

(** A field annotated [Optional[A] = default]: the default when absent,
    [None] when sent as [null]. *)
Definition optional {A : Type} (default : option A) (f : Field A) : Result (option A) :=
  match f with
  | Absent => Ok default
  | Null => Ok None
  | Present a => Ok (Some a)
  end.

Module TaskCreateBody.
Record t : Type := mk {
  title : Field string;
  completed : Field bool;
  created_at : Field date
}.
End TaskCreateBody.

Module UpdateTaskBody.
Record t : Type := mk {
  title : Field string;
  completed : Field bool
}.
End UpdateTaskBody.

Definition parse_TaskCreate (b : TaskCreateBody.t) : Result TaskCreate.t :=
  title <- required (TaskCreateBody.title b) ;;
  completed <- optional (Some false) (TaskCreateBody.completed b) ;;
  created_at <- optional None (TaskCreateBody.created_at b) ;;
  Ok (TaskCreate.mk title completed created_at).

Definition parse_UpdateTask (b : UpdateTaskBody.t) : Result UpdateTask.t :=
  title <- required (UpdateTaskBody.title b) ;;
  completed <- required (UpdateTaskBody.completed b) ;;
  Ok (UpdateTask.mk title completed).

(** A body parameter annotated [Optional[UpdateTask] = None]: the request may
    carry no body at all; a body that is sent must validate. *)
Definition parse_optional_UpdateTask (b : option UpdateTaskBody.t)
  : Result (option UpdateTask.t) :=
  match b with
  | None => Ok None
  | Some b => u <- parse_UpdateTask b ;; Ok (Some u)
  end.

(** ** [Task.from_orm]

    [from_orm] validates the attributes of its argument against the fields of
    [Task].  An attribute the argument does not have takes the field's
    default; an attribute it has is validated as it is, so [None] is refused
    by a field whose type is not [Optional]. *)

Inductive Attr (A : Type) : Type :=
| NoAttr
| AttrValue (v : option A).

Arguments NoAttr {A}.
Arguments AttrValue {A} v.

Definition validate_attr {A : Type} (default : option A) (a : Attr A) : Result A :=
  match a with
  | NoAttr =>
      match default with
      | Some d => Ok d
      | None => Raise ValidationError
      end
  | AttrValue (Some v) => Ok v
  | AttrValue None => Raise ValidationError
  end.

(** [today] is the value of [date.today()], the [default_factory] of
    [Task.created_at].  A [TaskCreate] has the attributes [title],
    [completed] and [created_at] and no attribute [id]. *)
Definition Task_from_orm (today : date) (task : TaskCreate.t) : Result Task.t :=
  title <- validate_attr None (AttrValue (Some (TaskCreate.title task))) ;;
  completed <- validate_attr (Some false) (AttrValue (TaskCreate.completed task)) ;;
  created_at <- validate_attr (Some today) (AttrValue (TaskCreate.created_at task)) ;;
  Ok (Task.mk None title completed created_at).

(** ** Storage: the [task] table *)

Definition Table : Type := list Task.t.

(** SQLite's INTEGER: a signed 64-bit value. *)
Definition min_int64 : Z := -9223372036854775808.
Definition max_int64 : Z := 9223372036854775807.

Definition in_int64 (z : Z) : bool := (min_int64 <=? z) && (z <=? max_int64).

Definition has_id (i : Z) (r : Task.t) : bool :=
  match Task.id r with
  | Some j => j =? i
  | None => false
  end.

(** [Task.completed == True] / [Task.completed == False]. *)
Definition completed_is (b : bool) (r : Task.t) : bool := Bool.eqb (Task.completed r) b.

(** The conditions the handlers put in a WHERE clause: [Task.id == task_id]
    and [Task.completed == b].  The first carries an integer parameter. *)
Inductive Clause : Type :=
| IdEq (task_id : Z)
| CompletedEq (b : bool).

Definition holds (c : Clause) (r : Task.t) : bool :=
  match c with
  | IdEq task_id => has_id task_id r
  | CompletedEq b => completed_is b r
  end.

Definition clause_params (c : Clause) : list Z :=
  match c with
  | IdEq task_id => [task_id]
  | CompletedEq _ => []
  end.

(** A [select(Task)] statement under construction. *)
Record Query : Type := mkQuery {
  q_where : list Clause;
  q_order_by : option (Task.t -> Z);
  q_offset : option Z;
  q_limit : option Z
}.

Definition select_Task : Query := mkQuery [] None None None.

Definition where_ (c : Clause) (q : Query) : Query :=
  mkQuery (q_where q ++ [c]) (q_order_by q) (q_offset q) (q_limit q).

Definition order_by (key : Task.t -> Z) (q : Query) : Query :=
  mkQuery (q_where q) (Some key) (q_offset q) (q_limit q).

Definition offset (n : Z) (q : Query) : Query :=
  mkQuery (q_where q) (q_order_by q) (Some n) (q_limit q).

Definition limit (n : Z) (q : Query) : Query :=
  mkQuery (q_where q) (q_order_by q) (q_offset q) (Some n).

(** [ORDER BY key]: ascending; rows with equal keys keep their table order. *)
Fixpoint insert_by (key : Task.t -> Z) (x : Task.t) (l : list Task.t) : list Task.t :=
  match l with
  | [] => [x]
  | y :: l' => if key x <=? key y then x :: l else y :: insert_by key x l'
  end.

Definition sort_by (key : Task.t -> Z) (l : list Task.t) : list Task.t :=
  fold_right (insert_by key) [] l.

(** [OFFSET n]: a negative [n] skips nothing. *)
Definition sql_offset (n : Z) (l : list Task.t) : list Task.t :=
  skipn (Z.to_nat n) l.

(** [LIMIT n]: a negative [n] is no limit. *)
Definition sql_limit (n : Z) (l : list Task.t) : list Task.t :=
  if n <? 0 then l else firstn (Z.to_nat n) l.

(** The integers a statement hands to the driver. *)
Definition bound_params (q : Query) : list Z :=
  flat_map clause_params (q_where q)
  ++ match q_limit q with Some n => [n] | None => [] end
  ++ match q_offset q with Some n => [n] | None => [] end.

(** The rows a statement selects: WHERE, then ORDER BY, then OFFSET, then
    LIMIT, whatever the order in which the clauses were attached. *)
Definition select_rows (session : Table) (q : Query) : list Task.t :=
  let rows := filter (fun r => forallb (fun c => holds c r) (q_where q)) session in
  let rows := match q_order_by q with Some key => sort_by key rows | None => rows end in
  let rows := match q_offset q with Some n => sql_offset n rows | None => rows end in
  match q_limit q with Some n => sql_limit n rows | None => rows end.

(** [session.exec(query)]: the driver binds the parameters, raising
    [OverflowError] on one that is outside the 64-bit range, and the
    statement then runs. *)
Definition exec (session : Table) (q : Query) : Result (list Task.t) :=
  if forallb in_int64 (bound_params q)
  then Ok (select_rows session q)
  else Raise OverflowError.

Definition all (rows : list Task.t) : list Task.t := rows.
Definition first (rows : list Task.t) : option Task.t := hd_error rows.

(** [session.get(Task, task_id)]: the row with that primary key, if any. *)
Definition session_get (session : Table) (task_id : Z) : Result (option Task.t) :=
  rows <- exec session (where_ (IdEq task_id) select_Task) ;;
  Ok (first rows).

(** The rowid an [INSERT] without an id receives: 1 in an empty table, else
    one more than the largest rowid in use.  When the largest rowid in use
    is the largest 64-bit integer, SQLite draws positive candidates at random
    until one is unused; the model takes the smallest unused positive integer
    in the place of that draw. *)
Definition rowids (session : Table) : list Z :=
  flat_map (fun r => match Task.id r with Some i => [i] | None => [] end) session.

Fixpoint unused_from (fuel : nat) (candidate : Z) (ids : list Z) : Z :=
  match fuel with
  | O => candidate
  | S fuel' =>
      if existsb (Z.eqb candidate) ids
      then unused_from fuel' (candidate + 1) ids
      else candidate
  end.

Definition next_rowid (session : Table) : Z :=
  match rowids session with
  | [] => 1
  | i :: l =>
      let largest := fold_left Z.max l i in
      if largest <? max_int64
      then largest + 1
      else unused_from (List.length (i :: l)) 1 (i :: l)
  end.

(** [UPDATE task SET title = ?, completed = ? WHERE id = ?]. *)
Definition sql_update (i : Z) (title : string) (completed : bool) (session : Table) : Table :=
  map (fun r => if has_id i r
                then Task.set_completed completed (Task.set_title title r)
                else r) session.

(** [DELETE FROM task WHERE id = ?]. *)
Definition sql_delete (i : Z) (session : Table) : Table :=
  filter (fun r => negb (has_id i r)) session.

(** [session.add(t); session.commit(); session.refresh(t)].  An object with
    no id is inserted and receives its rowid; an object loaded from the table
    is written back by primary key.  The refreshed object is the row as the
    table now holds it (the row is there, under an id that was read from the
    table: the object was loaded from it). *)
Definition add_commit_refresh (t : Task.t) (session : Table) : Task.t * Table :=
  match Task.id t with
  | None =>
      let t' := Task.set_id (next_rowid session) t in
      (t', session ++ [t'])
  | Some i =>
      let session' := sql_update i (Task.title t) (Task.completed t) session in
      (match find (has_id i) session' with Some t' => t' | None => t end, session')
  end.

(** [session.delete(t); session.commit()]. *)
Definition delete_commit (t : Task.t) (session : Table) : Table :=
  match Task.id t with
  | Some i => sql_delete i session
  | None => session
  end.

(** ** Handlers *)

(** [x is True], [x is False]. *)
Definition is_True (x : option bool) : bool :=
  match x with Some true => true | _ => false end.
Definition is_False (x : option bool) : bool :=
  match x with Some false => true | _ => false end.

(** [def create_task(task: TaskCreate, session)] *)
Definition create_task (today : date) (task : TaskCreate.t) (session : Table)
  : Result (Task.t * Table) :=
  db_task <- Task_from_orm today task ;;
  Ok (add_commit_refresh db_task session).

(** [def get_tasks(session, offset, limit, status)] *)
Definition get_tasks (session : Table) (offset_ limit_ : Z) (status : option bool)
  : Result (list Task.t) :=
  let query := select_Task in
  let query := if is_True status then where_ (CompletedEq true) query else query in
  let query := if is_False status then where_ (CompletedEq false) query else query in
  tasks <- exec session (limit limit_ (offset offset_ (order_by Task.created_at query))) ;;
  Ok (all tasks).

(** [def get_task(task_id, session)] *)
Definition get_task (task_id : Z) (session : Table) : Result Task.t :=
  rows <- exec session (where_ (IdEq task_id) select_Task) ;;
  match first rows with
  | None => Raise (HTTPException 404 "Task not found")
  | Some task => Ok task
  end.

(** [def update_task(task_id, updated_task, session)] *)
Definition update_task (task_id : Z) (updated_task : UpdateTask.t) (session : Table)
  : Result (Task.t * Table) :=
  task <- session_get session task_id ;;
  match task with
  | None =>
      Raise (HTTPException 404 "Not Found: Requested task doesn't exist ")
  | Some task =>
      let task := Task.set_title (UpdateTask.title updated_task) task in
      let task := Task.set_completed (UpdateTask.completed updated_task) task in
      Ok (add_commit_refresh task session)
  end.

(** Attribute access [updated_task.title] on a value that may be [None].
    The attributes of an [UpdateTask] are a [str] and a [bool]: never [None]. *)
Definition getattr {A : Type} (updated_task : option UpdateTask.t)
    (attr : UpdateTask.t -> A) : Result (option A) :=
  match updated_task with
  | None => Raise AttributeError
  | Some u => Ok (Some (attr u))
  end.

(** [def partial_update(task_id, session, updated_task = None)] *)
Definition partial_update (task_id : Z) (session : Table)
    (updated_task : option UpdateTask.t) : Result (Task.t * Table) :=
  task <- session_get session task_id ;;
  match task with
  | None =>
      Raise (HTTPException 404 "Not Found: Requested task doesn't exist")
  | Some task =>
      title <- getattr updated_task UpdateTask.title ;;
      let task :=
        match title with
        | Some title => Task.set_title title task
        | None => task
        end in
      completed <- getattr updated_task UpdateTask.completed ;;
      let task :=
        match completed with
        | Some completed => Task.set_completed completed task
        | None => task
        end in
      Ok (add_commit_refresh task session)
  end.

(** The value [delete_task] returns: the Python set [{"task deleted", True}]. *)
Inductive PyValue : Type :=
| PyStr (s : string)
| PyBool (b : bool).

Definition deleted_confirmation : list PyValue := [PyStr "task deleted"; PyBool true].

(** [def delete_task(task_id, session)] *)
Definition delete_task (task_id : Z) (session : Table)
  : Result (list PyValue * Table) :=
  rows <- exec session (where_ (IdEq task_id) select_Task) ;;
  match first rows with
  | None =>
      Raise (HTTPException 404 "Not Found: Requested task doesn't exist")
  | Some task => Ok (deleted_confirmation, delete_commit task session)
  end.

(** ** Endpoints: input validation, then the handler *)

(** [POST /tasks/] *)
Definition post_tasks (today : date) (body : TaskCreateBody.t) (session : Table)
  : Result (Task.t * Table) :=
  task <- parse_TaskCreate body ;;
  create_task today task session.

(** [limit: Annotated[int, Query(le=20)] = 20] *)
Definition validate_limit (limit_ : option Z) : Result Z :=
  match limit_ with
  | None => Ok 20
  | Some n => if n <=? 20 then Ok n else Raise RequestValidationError
  end.

(** [offset: int = 0] *)
Definition validate_offset (offset_ : option Z) : Result Z :=
  match offset_ with
  | None => Ok 0
  | Some n => Ok n
  end.

(** [GET /tasks] *)
Definition get_tasks_endpoint (session : Table) (offset_ limit_ : option Z)
    (status : option bool) : Result (list Task.t) :=
  offset_ <- validate_offset offset_ ;;
  limit_ <- validate_limit limit_ ;;
  get_tasks session offset_ limit_ status.

(** [PUT /tasks/{task_id}] *)
Definition put_task (task_id : Z) (body : UpdateTaskBody.t) (session : Table)
  : Result (Task.t * Table) :=
  updated_task <- parse_UpdateTask body ;;
  update_task task_id updated_task session.

(** [PATCH /tasks/{task_id}] *)
Definition patch_task (task_id : Z) (body : option UpdateTaskBody.t) (session : Table)
  : Result (Task.t * Table) :=
  updated_task <- parse_optional_UpdateTask body ;;
  partial_update task_id session updated_task.

(** ** The application: routes and their handlers

    [app = FastAPI()] with its six decorated routes.  A request is answered
    in a session of its own; a handler that raises has written nothing (each
    [raise] comes before the first [session.add] or [session.delete]), so the
    table is then left as it was. *)

Inductive Request : Type :=
| POST_tasks (body : TaskCreateBody.t)
| GET_tasks (offset_ limit_ : option Z) (status : option bool)
| GET_task (task_id : Z)
| PUT_task (task_id : Z) (body : UpdateTaskBody.t)
| PATCH_task (task_id : Z) (body : option UpdateTaskBody.t)
| DELETE_task (task_id : Z).

Inductive Response : Type :=
| TaskResponse (t : Task.t)
| TasksResponse (l : list Task.t)
| DeletedResponse (c : list PyValue).

Definition committed {A : Type} (respond : A -> Response) (session : Table)
    (r : Result (A * Table)) : Result Response * Table :=
  match r with
  | Ok (a, session') => (Ok (respond a), session')
  | Raise e => (Raise e, session)
  end.

Definition read_only {A : Type} (respond : A -> Response) (session : Table)
    (r : Result A) : Result Response * Table :=
  match r with
  | Ok a => (Ok (respond a), session)
  | Raise e => (Raise e, session)
  end.

(** One request, received on the day [today]. *)
Definition app (today : date) (req : Request) (session : Table)
  : Result Response * Table :=
  match req with
  | POST_tasks body =>
      committed TaskResponse session (post_tasks today body session)
  | GET_tasks offset_ limit_ status =>
      read_only TasksResponse session (get_tasks_endpoint session offset_ limit_ status)
  | GET_task task_id =>
      read_only TaskResponse session (get_task task_id session)
  | PUT_task task_id body =>
      committed TaskResponse session (put_task task_id body session)
  | PATCH_task task_id body =>
      committed TaskResponse session (patch_task task_id body session)
  | DELETE_task task_id =>
      committed DeletedResponse session (delete_task task_id session)
  end.

(** The table after a sequence of requests, each with the day it came on. *)
Fixpoint serve (reqs : list (date * Request)) (session : Table) : Table :=
  match reqs with
  | [] => session
  | (today, req) :: reqs' => serve reqs' (snd (app today req session))
  end.

(** ** Predicates used to state the properties *)

(** Row [a] comes no later than row [b] in the order of [key]. *)
Definition key_le (key : Task.t -> Z) (a b : Task.t) : Prop := key a <= key b.

(** The completion filter of a listing: every row when no status is given,
    else the rows whose [completed] equals it. *)
Definition status_matches (status : option bool) (r : Task.t) : bool :=
  match status with
  | None => true
  | Some b => Bool.eqb (Task.completed r) b
  end.

(** No stored title is the empty string. *)
Definition titles_nonempty (session : Table) : Prop :=
  Forall (fun r => Task.title r <> "") session.

(** Every stored row has a positive id. *)
Definition ids_positive (session : Table) : Prop :=
  Forall (fun r => exists i, Task.id r = Some i /\ 0 < i) session.

(** The table invariant the database maintains: ids are positive and no two
    rows share one. *)
Definition table_ok (session : Table) : Prop :=
  ids_positive session /\ NoDup (rowids session).

(** Every stored id is below the largest 64-bit integer, so that the next
    rowid is one more than the largest in use. *)
Definition rowids_below_max (session : Table) : Prop :=
  forall r j, In r session -> Task.id r = Some j -> j < max_int64.

(** ** Sample table *)

Definition milk : Task.t := Task.mk (Some 1) "buy milk" false 739000.
Definition eggs : Task.t := Task.mk (Some 2) "buy eggs" true 738990.
Definition bread : Task.t := Task.mk (Some 3) "" false 739000.
Definition sample : Table := [milk; eggs; bread].

(** ** Sample runs *)

Example create_with_date :
  post_tasks 739200 (TaskCreateBody.mk (Present "call mum") Absent (Present 739100)) sample
  = Ok (Task.mk (Some 4) "call mum" false 739100,
        [milk; eggs; bread; Task.mk (Some 4) "call mum" false 739100]).
Proof. reflexivity. Qed.

Example list_all : get_tasks sample 0 20 None = Ok [eggs; milk; bread].
Proof. reflexivity. Qed.

Example list_open_second : get_tasks sample 1 1 (Some false) = Ok [bread].
Proof. reflexivity. Qed.

Example list_negative_limit : get_tasks sample (-3) (-1) None = Ok [eggs; milk; bread].
Proof. reflexivity. Qed.

Example list_offset_too_large :
  get_tasks sample 9223372036854775808 20 None = Raise OverflowError.
Proof. reflexivity. Qed.

Example get_id_too_large :
  get_task 9223372036854775808 sample = Raise OverflowError.
Proof. reflexivity. Qed.

Example put_eggs :
  put_task 2 (UpdateTaskBody.mk (Present "buy six eggs") (Present false)) sample
  = Ok (Task.mk (Some 2) "buy six eggs" false 738990,
        [milk; Task.mk (Some 2) "buy six eggs" false 738990; bread]).
Proof. reflexivity. Qed.

Example delete_eggs :
  delete_task 2 sample = Ok (deleted_confirmation, [milk; bread]).
Proof. reflexivity. Qed.

(** ** Facts about the storage layer *)

Section ResultFacts.
Context {A B : Type}.

Lemma bind_Ok (r : Result A) (k : A -> Result B) (b : B) :
  bind r k = Ok b -> exists a, r = Ok a /\ k a = Ok b.
Proof.
  destruct r as [a | e]; simpl; intros H.
  - exists a. split; [reflexivity | exact H].
  - discriminate H.
Qed.
End ResultFacts.

Lemma in_int64_true (z : Z) :
  in_int64 z = true <-> min_int64 <= z <= max_int64.
Proof.
  unfold in_int64. rewrite andb_true_iff, !Z.leb_le. reflexivity.
Qed.

Lemma in_int64_false (z : Z) :
  in_int64 z = false <-> z < min_int64 \/ max_int64 < z.
Proof.
  unfold in_int64. rewrite andb_false_iff, !Z.leb_gt. reflexivity.
Qed.

Lemma has_id_true (i : Z) (r : Task.t) :
  has_id i r = true <-> Task.id r = Some i.
Proof.
  unfold has_id. destruct (Task.id r) as [j |].
  - rewrite Z.eqb_eq. split; intros H; [subst; reflexivity | now inversion H].
  - split; intros H; discriminate H.
Qed.

Lemma has_id_false (i : Z) (r : Task.t) :
  has_id i r = false <-> Task.id r <> Some i.
Proof.
  rewrite <- has_id_true. destruct (has_id i r); split; congruence.
Qed.

Lemma first_filter (p : Task.t -> bool) (l : list Task.t) :
  first (filter p l) = find p l.
Proof.
  induction l as [| x l IH]; simpl; [reflexivity |].
  destruct (p x); [reflexivity | exact IH].
Qed.

Lemma exec_by_id (session : Table) (i : Z) :
  exec session (where_ (IdEq i) select_Task)
  = if in_int64 i then Ok (filter (has_id i) session) else Raise OverflowError.
Proof.
  unfold exec, bound_params, select_rows. simpl. rewrite andb_true_r.
  destruct (in_int64 i); [| reflexivity].
  f_equal. apply filter_ext. intros r. apply andb_true_r.
Qed.

Lemma session_get_find (session : Table) (i : Z) :
  session_get session i
  = if in_int64 i then Ok (find (has_id i) session) else Raise OverflowError.
Proof.
  unfold session_get. rewrite exec_by_id.
  destruct (in_int64 i); simpl; [| reflexivity]. now rewrite first_filter.
Qed.

Lemma get_task_find (task_id : Z) (session : Table) :
  get_task task_id session =
  if in_int64 task_id
  then match find (has_id task_id) session with
       | Some task => Ok task
       | None => Raise (HTTPException 404 "Task not found")
       end
  else Raise OverflowError.
Proof.
  unfold get_task. rewrite exec_by_id.
  destruct (in_int64 task_id); simpl; [| reflexivity]. now rewrite first_filter.
Qed.

Lemma find_has_id_None (i : Z) (session : Table) :
  find (has_id i) session = None <->
  (forall r, In r session -> Task.id r <> Some i).
Proof.
  split.
  - intros H r Hin. apply has_id_false. exact (find_none _ _ H r Hin).
  - intros H. induction session as [| x l IH]; simpl; [reflexivity |].
    assert (Hx : has_id i x = false) by (apply has_id_false, H; now left).
    rewrite Hx. apply IH. intros r Hin. apply H. now right.
Qed.

Lemma find_has_id_Some (i : Z) (session : Table) (t : Task.t) :
  find (has_id i) session = Some t -> In t session /\ Task.id t = Some i.
Proof.
  intros H. apply find_some in H. destruct H as [Hin Hid].
  split; [exact Hin | now apply has_id_true].
Qed.

Lemma find_has_id_exists (i : Z) (session : Table) :
  (exists r, In r session /\ Task.id r = Some i) ->
  exists t, find (has_id i) session = Some t.
Proof.
  intros [r [Hin Hid]].
  destruct (find (has_id i) session) as [t |] eqn:E; [now exists t |].
  exfalso. exact (proj1 (find_has_id_None i session) E r Hin Hid).
Qed.

Lemma delete_task_find (task_id : Z) (session : Table) :
  delete_task task_id session =
  if in_int64 task_id
  then match find (has_id task_id) session with
       | Some _ => Ok (deleted_confirmation, sql_delete task_id session)
       | None => Raise (HTTPException 404 "Not Found: Requested task doesn't exist")
       end
  else Raise OverflowError.
Proof.
  unfold delete_task. rewrite exec_by_id.
  destruct (in_int64 task_id); simpl; [| reflexivity]. rewrite first_filter.
  destruct (find (has_id task_id) session) as [t |] eqn:E; [| reflexivity].
  apply find_has_id_Some in E. destruct E as [_ Hid].
  unfold delete_commit. now rewrite Hid.
Qed.

(** *** Listing *)

Lemma get_tasks_run (session : Table) (offset_ limit_ : Z) (status : option bool) :
  get_tasks session offset_ limit_ status
  = if in_int64 limit_ && in_int64 offset_
    then Ok (sql_limit limit_ (sql_offset offset_
               (sort_by Task.created_at (filter (status_matches status) session))))
    else Raise OverflowError.
Proof.
  unfold get_tasks, exec, bound_params, select_rows, all.
  destruct status as [[|] |]; simpl; rewrite andb_true_r;
    destruct (in_int64 limit_ && in_int64 offset_); simpl; try reflexivity;
    f_equal; f_equal; f_equal; f_equal;
    apply filter_ext; intros r; unfold completed_is; simpl;
    rewrite ?andb_true_r; reflexivity.
Qed.

(** *** Sorting *)

Section Sorting.
Variable key : Task.t -> Z.

Lemma insert_by_perm (x : Task.t) (l : list Task.t) :
  Permutation (x :: l) (insert_by key x l).
Proof.
  induction l as [| y l IH]; simpl; [apply Permutation_refl |].
  destruct (key x <=? key y); [apply Permutation_refl |].
  apply perm_trans with (y :: x :: l); [apply perm_swap |].
  apply perm_skip. exact IH.
Qed.

Lemma sort_by_perm (l : list Task.t) : Permutation l (sort_by key l).
Proof.
  induction l as [| x l IH]; simpl; [apply perm_nil |].
  apply perm_trans with (x :: sort_by key l).
  - apply perm_skip. exact IH.
  - apply insert_by_perm.
Qed.

Lemma insert_by_sorted (x : Task.t) (l : list Task.t) :
  StronglySorted (key_le key) l -> StronglySorted (key_le key) (insert_by key x l).
Proof.
  induction l as [| y l IH]; simpl; intros Hs.
  - constructor; constructor.
  - inversion Hs as [| y' l' Hl Hy]; subst.
    destruct (key x <=? key y) eqn:E.
    + apply Z.leb_le in E. constructor; [exact Hs |].
      constructor; [exact E |].
      apply Forall_impl with (P := key_le key y); [| exact Hy].
      intros a Ha. unfold key_le in *. lia.
    + apply Z.leb_gt in E. constructor; [now apply IH |].
      apply (Permutation_Forall (insert_by_perm x l)).
      constructor; [unfold key_le; lia | exact Hy].
Qed.

Lemma sort_by_sorted (l : list Task.t) : StronglySorted (key_le key) (sort_by key l).
Proof.
  induction l as [| x l IH]; simpl; [constructor |].
  apply insert_by_sorted. exact IH.
Qed.

Lemma firstn_In (n : nat) (l : list Task.t) (a : Task.t) :
  In a (firstn n l) -> In a l.
Proof.
  revert l. induction n as [| n IH]; intros [| x l]; simpl; try tauto.
  intros [H | H]; [now left | right; now apply IH].
Qed.

Lemma skipn_In (n : nat) (l : list Task.t) (a : Task.t) :
  In a (skipn n l) -> In a l.
Proof.
  revert l. induction n as [| n IH]; intros [| x l]; simpl; try tauto.
  intros H. right. now apply IH.
Qed.

Lemma StronglySorted_skipn (n : nat) (l : list Task.t) :
  StronglySorted (key_le key) l -> StronglySorted (key_le key) (skipn n l).
Proof.
  revert l. induction n as [| n IH]; intros l Hs; [exact Hs |].
  destruct l as [| x l]; simpl; [constructor |].
  apply IH. now inversion Hs.
Qed.

Lemma StronglySorted_firstn (n : nat) (l : list Task.t) :
  StronglySorted (key_le key) l -> StronglySorted (key_le key) (firstn n l).
Proof.
  revert l. induction n as [| n IH]; intros l Hs; simpl; [constructor |].
  destruct l as [| x l]; [constructor |].
  inversion Hs as [| x' l' Hl Hx]; subst.
  constructor; [now apply IH |].
  rewrite Forall_forall in *. intros a Ha. apply Hx.
  revert Ha. apply firstn_In.
Qed.
End Sorting.

(** *** Row ids *)

Lemma fold_max_ge (l : list Z) (i : Z) :
  i <= fold_left Z.max l i /\ (forall j, In j l -> j <= fold_left Z.max l i).
Proof.
  revert i. induction l as [| x l IH]; intros i; simpl.
  - split; [lia | intros j []].
  - destruct (IH (Z.max i x)) as [H1 H2]. split; [lia |].
    intros j [Hj | Hj]; [subst; lia | now apply H2].
Qed.

Lemma fold_max_In (l : list Z) (i : Z) : In (fold_left Z.max l i) (i :: l).
Proof.
  revert i. induction l as [| x l IH]; intros i; simpl; [now left |].
  destruct (IH (Z.max i x)) as [H | H].
  - rewrite <- H. destruct (Z.max_spec i x) as [[_ E] | [_ E]]; rewrite E; auto.
  - right. now right.
Qed.

Lemma rowids_In (session : Table) (r : Task.t) (i : Z) :
  In r session -> Task.id r = Some i -> In i (rowids session).
Proof.
  intros Hin Hid. unfold rowids. apply in_flat_map.
  exists r. split; [exact Hin |]. rewrite Hid. now left.
Qed.

Lemma rowids_inv (session : Table) (i : Z) :
  In i (rowids session) -> exists r, In r session /\ Task.id r = Some i.
Proof.
  unfold rowids. rewrite in_flat_map. intros [r [Hin Hi]]. exists r.
  split; [exact Hin |]. destruct (Task.id r) as [j |]; [| destruct Hi].
  destruct Hi as [-> | []]. reflexivity.
Qed.

Lemma filter_leb_succ (c : Z) (ids : list Z) :
  (List.length (filter (Z.leb (c + 1)) ids) <= List.length (filter (Z.leb c) ids))%nat /\
  (In c ids ->
   (List.length (filter (Z.leb (c + 1)) ids) < List.length (filter (Z.leb c) ids))%nat).
Proof.
  induction ids as [| x l [IH1 IH2]]; simpl; [split; [lia | intros []] |].
  destruct (Z.leb_spec (c + 1) x) as [E1 | E1];
    destruct (Z.leb_spec c x) as [E2 | E2]; simpl; try lia.
  - split; [lia |]. intros [H | H]; [lia | specialize (IH2 H); lia].
  - split; [lia |]. intros [H | H]; [lia | specialize (IH2 H); lia].
Qed.

Lemma unused_from_spec (fuel : nat) (c : Z) (ids : list Z) :
  (List.length (filter (Z.leb c) ids) <= fuel)%nat ->
  ~ In (unused_from fuel c ids) ids /\ c <= unused_from fuel c ids.
Proof.
  revert c. induction fuel as [| fuel IH]; intros c Hlen; simpl.
  - split; [| lia]. intros Hin.
    assert (Hc : In c (filter (Z.leb c) ids)) by (apply filter_In; split; [exact Hin | apply Z.leb_refl]).
    destruct (filter (Z.leb c) ids); [destruct Hc | simpl in Hlen; lia].
  - destruct (existsb (Z.eqb c) ids) eqn:E.
    + apply existsb_exists in E. destruct E as [x [Hx Ex]].
      apply Z.eqb_eq in Ex. subst x.
      destruct (filter_leb_succ c ids) as [_ Hlt]. specialize (Hlt Hx).
      destruct (IH (c + 1)) as [H1 H2]; [lia |]. split; [exact H1 | lia].
    + split; [| lia]. intros Hin.
      assert (existsb (Z.eqb c) ids = true)
        by (apply existsb_exists; exists c; split; [exact Hin | apply Z.eqb_refl]).
      congruence.
Qed.

Lemma next_rowid_spec (session : Table) :
  ~ In (next_rowid session) (rowids session) /\
  (ids_positive session -> 0 < next_rowid session).
Proof.
  unfold next_rowid. destruct (rowids session) as [| i l] eqn:E.
  - split; [intros [] | lia].
  - destruct (fold_max_ge l i) as [H1 H2].
    destruct (fold_left Z.max l i <? max_int64).
    + split.
      * intros [H | H]; [lia | specialize (H2 _ H); lia].
      * intros Hpos.
        assert (Hi : In i (rowids session)) by (rewrite E; now left).
        apply rowids_inv in Hi. destruct Hi as [r [Hin Hid]].
        unfold ids_positive in Hpos. rewrite Forall_forall in Hpos.
        destruct (Hpos r Hin) as [j [Hj Hlt]]. rewrite Hid in Hj. inversion Hj; subst. lia.
    + destruct (unused_from_spec (List.length (i :: l)) 1 (i :: l)) as [Hun Hge].
      * apply filter_length_le.
      * split; [exact Hun | intros _; lia].
Qed.

Lemma next_rowid_fresh (session : Table) (r : Task.t) :
  In r session -> Task.id r <> Some (next_rowid session).
Proof.
  intros Hin Hid. apply (proj1 (next_rowid_spec session)).
  exact (rowids_In _ _ _ Hin Hid).
Qed.

Lemma next_rowid_positive (session : Table) :
  ids_positive session -> 0 < next_rowid session.
Proof. exact (proj2 (next_rowid_spec session)). Qed.

Lemma next_rowid_above (session : Table) (r : Task.t) (j : Z) :
  rowids_below_max session ->
  In r session -> Task.id r = Some j -> j < next_rowid session.
Proof.
  intros Hbelow Hin Hid. pose proof (rowids_In _ _ _ Hin Hid) as Hj.
  unfold next_rowid. destruct (rowids session) as [| i l] eqn:E; [destruct Hj |].
  destruct (fold_max_ge l i) as [H1 H2].
  assert (Hmax : fold_left Z.max l i < max_int64).
  { pose proof (fold_max_In l i) as Hm. rewrite <- E in Hm.
    apply rowids_inv in Hm. destruct Hm as [r' [Hin' Hid']].
    exact (Hbelow r' _ Hin' Hid'). }
  apply Z.ltb_lt in Hmax. rewrite Hmax.
  destruct Hj as [Hj | Hj]; [subst; lia | specialize (H2 _ Hj); lia].
Qed.

Lemma rowids_below_max_sample : rowids_below_max sample.
Proof.
  intros r j [<- | [<- | [<- | []]]] H; inversion H; unfold max_int64; lia.
Qed.

Lemma next_rowid_in_int64 (session : Table) :
  ids_positive session -> rowids_below_max session ->
  in_int64 (next_rowid session) = true.
Proof.
  intros Hpos Hbelow. apply in_int64_true.
  pose proof (next_rowid_positive session Hpos) as H0.
  split; [unfold min_int64; lia |].
  unfold next_rowid in *. destruct (rowids session) as [| i l] eqn:E;
    [unfold max_int64; lia |].
  assert (Hmax : fold_left Z.max l i < max_int64).
  { pose proof (fold_max_In l i) as Hm. rewrite <- E in Hm.
    apply rowids_inv in Hm. destruct Hm as [r [Hin Hid]]. exact (Hbelow r _ Hin Hid). }
  pose proof Hmax as Hlt. apply Z.ltb_lt in Hlt. rewrite Hlt. lia.
Qed.

Lemma ids_positive_sample : ids_positive sample.
Proof.
  repeat constructor; eexists; (split; [reflexivity | lia]).
Qed.

Lemma next_rowid_empty : next_rowid [] = 1.
Proof. reflexivity. Qed.

(** *** Lookups after a write *)

Lemma find_app_fresh (i : Z) (session : Table) (t : Task.t) :
  (forall r, In r session -> Task.id r <> Some i) ->
  Task.id t = Some i ->
  find (has_id i) (session ++ [t]) = Some t.
Proof.
  intros Hfresh Hid. induction session as [| x l IH]; simpl.
  - rewrite (proj2 (has_id_true i t) Hid). reflexivity.
  - rewrite (proj2 (has_id_false i x)) by (apply Hfresh; now left).
    apply IH. intros r Hin. apply Hfresh. now right.
Qed.

Lemma find_has_id_map (f : Task.t -> Task.t) (j : Z) (session : Table) :
  (forall r, Task.id (f r) = Task.id r) ->
  find (has_id j) (map f session) = option_map f (find (has_id j) session).
Proof.
  intros Hid. induction session as [| x l IH]; simpl; [reflexivity |].
  assert (E : has_id j (f x) = has_id j x) by (unfold has_id; now rewrite Hid).
  rewrite E. destruct (has_id j x); [reflexivity | exact IH].
Qed.

Lemma sql_update_find_same (i : Z) (title : string) (completed : bool) (session : Table) :
  find (has_id i) (sql_update i title completed session) =
  option_map (fun r => Task.set_completed completed (Task.set_title title r))
             (find (has_id i) session).
Proof.
  unfold sql_update.
  rewrite find_has_id_map by (intros r; destruct (has_id i r); reflexivity).
  destruct (find (has_id i) session) as [t |] eqn:E; [| reflexivity].
  simpl. apply find_some in E. destruct E as [_ E]. now rewrite E.
Qed.

Lemma sql_update_find_other (i j : Z) (title : string) (completed : bool) (session : Table) :
  j <> i ->
  find (has_id j) (sql_update i title completed session) = find (has_id j) session.
Proof.
  intros Hne. unfold sql_update.
  rewrite find_has_id_map by (intros r; destruct (has_id i r); reflexivity).
  destruct (find (has_id j) session) as [t |] eqn:E; [| reflexivity].
  simpl. apply find_has_id_Some in E. destruct E as [_ E].
  rewrite (proj2 (has_id_false i t)); [reflexivity |].
  rewrite E. intros H. inversion H. contradiction.
Qed.

Lemma sql_delete_In (i : Z) (session : Table) (r : Task.t) :
  In r (sql_delete i session) <-> In r session /\ Task.id r <> Some i.
Proof.
  unfold sql_delete. rewrite filter_In, negb_true_iff, has_id_false. reflexivity.
Qed.

Lemma sql_delete_find_other (i j : Z) (session : Table) :
  j <> i ->
  find (has_id j) (sql_delete i session) = find (has_id j) session.
Proof.
  intros Hne. unfold sql_delete. induction session as [| x l IH]; simpl; [reflexivity |].
  destruct (has_id i x) eqn:Ei; simpl.
  - rewrite IH. apply has_id_true in Ei.
    rewrite (proj2 (has_id_false j x)); [reflexivity |].
    rewrite Ei. intros H. inversion H. congruence.
  - destruct (has_id j x); [reflexivity | exact IH].
Qed.

(** *** Creating a task *)

Lemma Task_from_orm_Ok (today : date) (task : TaskCreate.t) (db_task : Task.t) :
  Task_from_orm today task = Ok db_task ->
  exists completed created_at,
    TaskCreate.completed task = Some completed /\
    TaskCreate.created_at task = Some created_at /\
    db_task = Task.mk None (TaskCreate.title task) completed created_at.
Proof.
  unfold Task_from_orm. destruct task as [title [c |] [d |]]; simpl; intros H;
    try discriminate H.
  exists c, d. inversion H. repeat split.
Qed.

Lemma create_task_Ok (today : date) (task : TaskCreate.t) (session : Table)
    (t : Task.t) (session' : Table) :
  create_task today task session = Ok (t, session') ->
  exists completed created_at,
    TaskCreate.completed task = Some completed /\
    TaskCreate.created_at task = Some created_at /\
    t = Task.mk (Some (next_rowid session)) (TaskCreate.title task) completed created_at /\
    session' = (session ++ [t]).
Proof.
  unfold create_task. intros H. apply bind_Ok in H. destruct H as [db_task [Hd H]].
  apply Task_from_orm_Ok in Hd. destruct Hd as [c [d [Hc [Hd ->]]]].
  exists c, d. simpl in H. inversion H. repeat split; assumption.
Qed.

(** A payload that supplies [completed] and [created_at] is stored as sent,
    under a fresh rowid, positive when the ids in the table are. *)
Lemma create_task_complete_payload (today : date) (title : string)
    (completed : bool) (created_at : date) (session : Table) :
  let t := Task.mk (Some (next_rowid session)) title completed created_at in
  create_task today (TaskCreate.mk title (Some completed) (Some created_at)) session
    = Ok (t, (session ++ [t]))
  /\ (forall r, In r session -> Task.id r <> Task.id t)
  /\ (ids_positive session -> 0 < next_rowid session).
Proof.
  simpl. split; [reflexivity |]. split.
  - intros r Hin. now apply next_rowid_fresh.
  - apply next_rowid_positive.
Qed.

(** Without [AUTOINCREMENT] a rowid is handed out again once the row that
    held the largest id is gone. *)
Lemma rowid_reused_after_delete (today : date) :
  let task := TaskCreate.mk "a" (Some false) (Some today) in
  exists t1 session1 c session2 t2 session3,
    create_task today task [] = Ok (t1, session1) /\
    delete_task 1 session1 = Ok (c, session2) /\
    create_task today task session2 = Ok (t2, session3) /\
    Task.id t1 = Some 1 /\ Task.id t2 = Some 1.
Proof.
  simpl. do 6 eexists. repeat split; reflexivity.
Qed.

(** *** The table invariant *)

Lemma rowids_app (s1 s2 : Table) : rowids (s1 ++ s2) = (rowids s1 ++ rowids s2).
Proof. unfold rowids. apply flat_map_app. Qed.

Lemma rowids_sql_update (i : Z) (title : string) (completed : bool) (session : Table) :
  rowids (sql_update i title completed session) = rowids session.
Proof.
  unfold rowids, sql_update. induction session as [| x l IH]; simpl; [reflexivity |].
  rewrite IH. destruct (has_id i x); reflexivity.
Qed.

Lemma rowids_sql_delete_incl (i j : Z) (session : Table) :
  In j (rowids (sql_delete i session)) -> In j (rowids session).
Proof.
  unfold rowids. rewrite !in_flat_map. intros [r [Hin Hj]].
  exists r. split; [| exact Hj]. apply sql_delete_In in Hin. tauto.
Qed.

Lemma rowids_cons (x : Task.t) (l : Table) :
  rowids (x :: l)
  = match Task.id x with Some i => i :: rowids l | None => rowids l end.
Proof. unfold rowids. simpl. destruct (Task.id x); reflexivity. Qed.

Lemma NoDup_rowids_sql_delete (i : Z) (session : Table) :
  NoDup (rowids session) -> NoDup (rowids (sql_delete i session)).
Proof.
  induction session as [| x l IH]; intros Hnd; [constructor |].
  rewrite rowids_cons in Hnd.
  assert (Hl : NoDup (rowids l)).
  { destruct (Task.id x); [now inversion Hnd | exact Hnd]. }
  change (sql_delete i (x :: l))
    with (if negb (has_id i x) then x :: sql_delete i l else sql_delete i l).
  destruct (has_id i x); simpl negb; cbv iota; [now apply IH |].
  rewrite rowids_cons. destruct (Task.id x) as [k |]; [| now apply IH].
  inversion Hnd as [| k' l' Hk Hnd']; subst. constructor; [| now apply IH].
  intros Hin. apply Hk. now apply rowids_sql_delete_incl in Hin.
Qed.

Lemma table_ok_create (today : date) (task : TaskCreate.t) (session : Table)
    (t : Task.t) (session' : Table) :
  table_ok session -> create_task today task session = Ok (t, session') ->
  table_ok session'.
Proof.
  intros [Hpos Hnd] H. apply create_task_Ok in H.
  destruct H as [c [d [_ [_ [Ht Hs]]]]]. subst session'. split.
  - unfold ids_positive. apply Forall_app. split; [exact Hpos |].
    constructor; [| constructor]. exists (next_rowid session).
    split; [rewrite Ht; reflexivity | now apply next_rowid_positive].
  - rewrite rowids_app. unfold rowids at 2. rewrite Ht. simpl.
    apply NoDup_app; [exact Hnd | constructor; [intros [] | constructor] |].
    intros i Hin [Hi | []]. subst i.
    exact (proj1 (next_rowid_spec session) Hin).
Qed.

Lemma table_ok_sql_update (i : Z) (title : string) (completed : bool) (session : Table) :
  table_ok session -> table_ok (sql_update i title completed session).
Proof.
  intros [Hpos Hnd]. split; [| now rewrite rowids_sql_update].
  unfold ids_positive, sql_update in *. rewrite Forall_forall in *.
  intros r Hin. apply in_map_iff in Hin. destruct Hin as [x [Hx Hin]]. subst r.
  destruct (has_id i x); [| now apply Hpos].
  destruct (Hpos x Hin) as [k Hk]. exists k. exact Hk.
Qed.

Lemma table_ok_sql_delete (i : Z) (session : Table) :
  table_ok session -> table_ok (sql_delete i session).
Proof.
  intros [Hpos Hnd]. split; [| now apply NoDup_rowids_sql_delete].
  unfold ids_positive in *. rewrite Forall_forall in *.
  intros r Hin. apply sql_delete_In in Hin. now apply Hpos.
Qed.

(** Under the invariant an id names at most one row. *)
Lemma table_ok_unique (session : Table) (i : Z) (r1 r2 : Task.t) :
  table_ok session ->
  In r1 session -> In r2 session ->
  Task.id r1 = Some i -> Task.id r2 = Some i -> r1 = r2.
Proof.
  intros [_ Hnd]. induction session as [| x l IH]; intros H1 H2 E1 E2; [destruct H1 |].
  rewrite rowids_cons in Hnd.
  assert (Hl : NoDup (rowids l)).
  { destruct (Task.id x); [now inversion Hnd | exact Hnd]. }
  assert (Hx : forall r, In r l -> Task.id r = Some i -> Task.id x = Some i -> False).
  { intros r Hr Er Ex. pose proof (rowids_In l r i Hr Er) as Hi.
    rewrite Ex in Hnd. inversion Hnd; subst. contradiction. }
  destruct H1 as [H1 | H1], H2 as [H2 | H2].
  - congruence.
  - subst x. exfalso. exact (Hx r2 H2 E2 E1).
  - subst x. exfalso. exact (Hx r1 H1 E1 E2).
  - now apply IH.
Qed.

(** *** Updating a task *)

Lemma update_task_found (task_id : Z) (u : UpdateTask.t) (session : Table) (old : Task.t) :
  in_int64 task_id = true ->
  find (has_id task_id) session = Some old ->
  update_task task_id u session
  = Ok (Task.mk (Task.id old) (UpdateTask.title u) (UpdateTask.completed u)
                (Task.created_at old),
        sql_update task_id (UpdateTask.title u) (UpdateTask.completed u) session).
Proof.
  intros Hrange Hfind. unfold update_task. rewrite session_get_find, Hrange, Hfind.
  pose proof (find_has_id_Some _ _ _ Hfind) as [_ Hid].
  destruct old as [i t c d]. simpl in Hid. subst i.
  unfold add_commit_refresh. cbn.
  rewrite sql_update_find_same, Hfind. reflexivity.
Qed.

Lemma update_task_not_found (task_id : Z) (u : UpdateTask.t) (session : Table) :
  in_int64 task_id = true ->
  find (has_id task_id) session = None ->
  update_task task_id u session
  = Raise (HTTPException 404 "Not Found: Requested task doesn't exist ").
Proof.
  intros Hrange Hfind. unfold update_task.
  rewrite session_get_find, Hrange, Hfind. reflexivity.
Qed.

Lemma update_task_overflow (task_id : Z) (u : UpdateTask.t) (session : Table) :
  in_int64 task_id = false -> update_task task_id u session = Raise OverflowError.
Proof.
  intros Hrange. unfold update_task. rewrite session_get_find, Hrange. reflexivity.
Qed.

(** With a body, the PATCH handler writes both fields, as the PUT handler
    does, whenever the lookup does not come back empty. *)
Lemma partial_update_found (task_id : Z) (u : UpdateTask.t) (session : Table) :
  session_get session task_id <> Ok None ->
  partial_update task_id session (Some u) = update_task task_id u session.
Proof.
  intros Hget. unfold partial_update, update_task.
  destruct (session_get session task_id) as [[old |] | e]; simpl;
    [reflexivity | congruence | reflexivity].
Qed.

(** *** What a successful request tells about its input *)

Lemma post_tasks_Ok (today : date) (body : TaskCreateBody.t) (session : Table)
    (t : Task.t) (session' : Table) :
  post_tasks today body session = Ok (t, session') ->
  exists title completed created_at,
    TaskCreateBody.title body = Present title /\
    (TaskCreateBody.completed body = Present completed \/
     TaskCreateBody.completed body = Absent /\ completed = false) /\
    TaskCreateBody.created_at body = Present created_at /\
    t = Task.mk (Some (next_rowid session)) title completed created_at /\
    session' = session ++ [t].
Proof.
  destruct body as [[| | title] [| | c] [| | d]]; try discriminate.
  - intros H. inversion H. exists title, false, d. simpl. tauto.
  - intros H. inversion H. exists title, c, d. simpl. tauto.
Qed.

Lemma put_task_valid (task_id : Z) (title : string) (completed : bool) (session : Table) :
  put_task task_id (UpdateTaskBody.mk (Present title) (Present completed)) session
  = if in_int64 task_id
    then match find (has_id task_id) session with
         | Some old => Ok (Task.mk (Task.id old) title completed (Task.created_at old),
                           sql_update task_id title completed session)
         | None => Raise (HTTPException 404 "Not Found: Requested task doesn't exist ")
         end
    else Raise OverflowError.
Proof.
  unfold put_task. simpl. destruct (in_int64 task_id) eqn:R.
  - destruct (find (has_id task_id) session) as [old |] eqn:E.
    + exact (update_task_found _ _ _ _ R E).
    + exact (update_task_not_found _ _ _ R E).
  - exact (update_task_overflow _ _ _ R).
Qed.

Lemma put_task_Ok (task_id : Z) (body : UpdateTaskBody.t) (session : Table)
    (t : Task.t) (session' : Table) :
  put_task task_id body session = Ok (t, session') ->
  exists title completed old,
    body = UpdateTaskBody.mk (Present title) (Present completed) /\
    in_int64 task_id = true /\
    find (has_id task_id) session = Some old /\
    t = Task.mk (Task.id old) title completed (Task.created_at old) /\
    session' = sql_update task_id title completed session.
Proof.
  destruct body as [[| | title] [| | c]]; try discriminate.
  rewrite put_task_valid. destruct (in_int64 task_id); [| discriminate].
  destruct (find (has_id task_id) session) as [old |]; [| discriminate].
  intros H. inversion H. exists title, c, old. tauto.
Qed.

Lemma patch_task_Ok (task_id : Z) (body : option UpdateTaskBody.t) (session : Table)
    (t : Task.t) (session' : Table) :
  patch_task task_id body session = Ok (t, session') ->
  exists b, body = Some b /\ put_task task_id b session = Ok (t, session').
Proof.
  unfold patch_task. destruct body as [b |]; simpl.
  - intros H. exists b. split; [reflexivity |]. unfold put_task.
    destruct (parse_UpdateTask b) as [u | e]; simpl in *; [| discriminate H].
    rewrite <- partial_update_found; [exact H |].
    intros Hget. unfold partial_update in H. rewrite Hget in H. discriminate H.
  - unfold partial_update.
    destruct (session_get session task_id) as [[old |] | e]; discriminate.
Qed.

Lemma delete_task_Ok (task_id : Z) (session : Table)
    (c : list PyValue) (session' : Table) :
  delete_task task_id session = Ok (c, session') ->
  c = deleted_confirmation /\ session' = sql_delete task_id session /\
  in_int64 task_id = true /\
  exists t, find (has_id task_id) session = Some t.
Proof.
  rewrite delete_task_find. destruct (in_int64 task_id); [| discriminate].
  destruct (find (has_id task_id) session) as [t |]; [| discriminate].
  intros H. inversion H. repeat split. now exists t.
Qed.

Lemma get_task_after_delete (task_id : Z) (session : Table) :
  in_int64 task_id = true ->
  get_task task_id (sql_delete task_id session)
  = Raise (HTTPException 404 "Task not found").
Proof.
  intros R. rewrite get_task_find, R.
  rewrite (proj2 (find_has_id_None task_id (sql_delete task_id session))); [reflexivity |].
  intros r Hin. now apply sql_delete_In in Hin.
Qed.

Lemma titles_nonempty_sql_update (i : Z) (title : string) (completed : bool)
    (session : Table) :
  title <> "" -> titles_nonempty session ->
  titles_nonempty (sql_update i title completed session).
Proof.
  unfold titles_nonempty, sql_update. intros Ht Hs. rewrite Forall_forall in *.
  intros r Hin. apply in_map_iff in Hin. destruct Hin as [x [Hx Hin]]. subst r.
  destruct (has_id i x); [exact Ht | now apply Hs].
Qed.

(** ** The claims *)

(** C1 (the code departs from the claim).  The claim: a create request whose
    payload supplies only a title returns a persisted task with
    [completed = false], [created_at] = today and a fresh positive id.  The
    code: such a payload reaches [Task.from_orm] with [created_at = None],
    which the [date] field of [Task] refuses, so the request raises a
    validation error whatever the title, the date and the table, and nothing
    is stored. *)
Theorem create_title_only_raises (today : date) (title : string) (session : Table) :
  post_tasks today (TaskCreateBody.mk (Present title) Absent Absent) session
  = Raise ValidationError.
Proof. reflexivity. Qed.

(** C2 (the code departs from the claim).  The claim: a PATCH request whose
    payload contains only [completed] overwrites [completed] and leaves the
    title unchanged.  The code: the body is validated as an [UpdateTask],
    whose [title] is required, so the request is rejected before the handler
    runs and the task keeps both fields. *)
Theorem patch_completed_only_rejected (task_id : Z) (completed : bool) (session : Table) :
  patch_task task_id (Some (UpdateTaskBody.mk Absent (Present completed))) session
  = Raise RequestValidationError.
Proof. reflexivity. Qed.

(** C3 (the code departs from the claim).  The claim: for an existing task, a
    PATCH request with no payload never dereferences the absent payload.  The
    code: once the task is found the handler reads [updated_task.title] with
    [updated_task = None], which raises [AttributeError].  (The lookup comes
    first: were the id one that SQLite cannot hold, it would raise
    [OverflowError] before the payload is read.) *)
Theorem patch_without_body_raises (task_id : Z) (session : Table) :
  (exists r, In r session /\ Task.id r = Some task_id) ->
  patch_task task_id None session
  = Raise (if in_int64 task_id then AttributeError else OverflowError).
Proof.
  intros Hex. apply find_has_id_exists in Hex. destruct Hex as [t Ht].
  unfold patch_task, partial_update. simpl.
  rewrite session_get_find. destruct (in_int64 task_id); [| reflexivity].
  simpl. rewrite Ht. reflexivity.
Qed.

Lemma patch_without_body_raises_witness :
  (exists r, In r sample /\ Task.id r = Some 1) /\
  patch_task 1 None sample = Raise AttributeError.
Proof.
  assert (H : exists r, In r sample /\ Task.id r = Some 1).
  { exists milk. split; [left; reflexivity | reflexivity]. }
  split; [exact H | exact (patch_without_body_raises 1 sample H)].
Defined.

(** C4, as claimed, fails: no stored task has the id 2^63, and yet the full
    update of that id does not fail with Not Found; the driver cannot bind
    the id and the request ends in an [OverflowError]. *)
Lemma update_task_id_out_of_range :
  (forall r, In r sample -> Task.id r <> Some 9223372036854775808) /\
  update_task 9223372036854775808 (UpdateTask.mk "buy six eggs" false) sample
  = Raise OverflowError /\
  update_task 9223372036854775808 (UpdateTask.mk "buy six eggs" false) sample
  <> Raise (HTTPException 404 "Not Found: Requested task doesn't exist ").
Proof.
  split; [| split; [reflexivity | discriminate]].
  intros r [<- | [<- | [<- | []]]]; discriminate.
Qed.

(** C4, amended.  For every full-update payload and every task id within
    SQLite's signed 64-bit range: when no stored task has the id the
    operation fails with 404 Not Found; when a stored task has it, the
    operation succeeds, the returned task carries the payload's title and
    completed flag and the id and creation date of the stored task with that
    id, get-by-id then returns that task, get-by-id of every other id
    answers as before, and the table has as many rows as before.  For an id
    outside the range the operation raises [OverflowError]. *)
Theorem update_task_overwrites (task_id : Z) (u : UpdateTask.t) (session : Table) :
  (in_int64 task_id = false -> update_task task_id u session = Raise OverflowError)
  /\
  (in_int64 task_id = true ->
   (forall r, In r session -> Task.id r <> Some task_id) ->
   update_task task_id u session
   = Raise (HTTPException 404 "Not Found: Requested task doesn't exist "))
  /\
  (in_int64 task_id = true ->
   (exists r, In r session /\ Task.id r = Some task_id) ->
   exists old new session',
     In old session /\ Task.id old = Some task_id /\
     get_task task_id session = Ok old /\
     update_task task_id u session = Ok (new, session') /\
     Task.title new = UpdateTask.title u /\
     Task.completed new = UpdateTask.completed u /\
     Task.id new = Some task_id /\
     Task.created_at new = Task.created_at old /\
     get_task task_id session' = Ok new /\
     (forall j, j <> task_id -> get_task j session' = get_task j session) /\
     List.length session' = List.length session).
Proof.
  split; [apply update_task_overflow |]. split.
  - intros R Hnone. apply find_has_id_None in Hnone.
    now apply update_task_not_found.
  - intros R Hex. apply find_has_id_exists in Hex. destruct Hex as [old Hold].
    pose proof (find_has_id_Some _ _ _ Hold) as [Hin Hid].
    exists old. eexists. eexists. split; [exact Hin |]. split; [exact Hid |].
    split; [rewrite get_task_find, R, Hold; reflexivity |].
    split; [exact (update_task_found _ u _ _ R Hold) |].
    simpl. repeat split.
    + exact Hid.
    + rewrite get_task_find, R, sql_update_find_same, Hold. reflexivity.
    + intros j Hj. rewrite !get_task_find.
      destruct (in_int64 j); [| reflexivity]. now rewrite sql_update_find_other.
    + unfold sql_update. apply length_map.
Qed.

Lemma update_task_overwrites_witness :
  update_task 7 (UpdateTask.mk "buy six eggs" false) sample
  = Raise (HTTPException 404 "Not Found: Requested task doesn't exist ") /\
  exists old new session',
    In old sample /\ Task.id old = Some 2 /\
    get_task 2 sample = Ok old /\
    update_task 2 (UpdateTask.mk "buy six eggs" false) sample = Ok (new, session') /\
    Task.title new = "buy six eggs" /\
    Task.completed new = false /\
    Task.id new = Some 2 /\
    Task.created_at new = Task.created_at old /\
    get_task 2 session' = Ok new /\
    (forall j, j <> 2 -> get_task j session' = get_task j sample) /\
    List.length session' = List.length sample.
Proof.
  split.
  - apply (proj1 (proj2 (update_task_overwrites 7 (UpdateTask.mk "buy six eggs" false) sample)));
      [reflexivity |].
    intros r [<- | [<- | [<- | []]]]; discriminate.
  - apply (proj2 (proj2 (update_task_overwrites 2 (UpdateTask.mk "buy six eggs" false) sample))).
    + reflexivity.
    + exists eggs. split; [right; left; reflexivity | reflexivity].
Defined.

(** C5, as claimed, fails: a list request with offset 2^63 has no result
    sequence at all; the driver cannot bind the offset and the request ends
    in an [OverflowError]. *)
Lemma get_tasks_offset_out_of_range :
  get_tasks sample 9223372036854775808 20 None = Raise OverflowError /\
  (forall rows, get_tasks sample 9223372036854775808 20 None <> Ok rows).
Proof. split; [reflexivity | discriminate]. Qed.

(** C5, amended.  For every table and every list request whose offset and
    limit are within SQLite's signed 64-bit range, the result is the window
    [offset], then [limit], cut out of a sequence that holds exactly the rows
    whose [completed] equals the status when one is given (every row when it
    is omitted) and is sorted non-decreasing by [created_at]; the result is
    itself sorted and holds only such rows, and it holds all of them when the
    window cuts nothing.  A negative offset skips nothing, a negative limit
    is no limit.  When the offset or the limit is outside the range the
    request raises [OverflowError]. *)
Theorem get_tasks_filtered_sorted_paginated
    (session : Table) (offset_ limit_ : Z) (status : option bool) :
  (in_int64 offset_ = false \/ in_int64 limit_ = false ->
   get_tasks session offset_ limit_ status = Raise OverflowError)
  /\
  (in_int64 offset_ = true -> in_int64 limit_ = true ->
   exists rows result,
     Permutation rows (filter (status_matches status) session) /\
     StronglySorted (key_le Task.created_at) rows /\
     get_tasks session offset_ limit_ status = Ok result /\
     result = (if limit_ <? 0
               then skipn (Z.to_nat offset_) rows
               else firstn (Z.to_nat limit_) (skipn (Z.to_nat offset_) rows)) /\
     StronglySorted (key_le Task.created_at) result /\
     (forall r, In r result -> In r session /\ status_matches status r = true) /\
     (offset_ <= 0 -> limit_ < 0 \/ Z.of_nat (List.length session) <= limit_ ->
      result = rows)).
Proof.
  rewrite get_tasks_run. split.
  - intros [H | H]; rewrite H; [rewrite andb_false_r |]; reflexivity.
  - intros Ho Hl. rewrite Ho, Hl. simpl.
    exists (sort_by Task.created_at (filter (status_matches status) session)).
    eexists.
    assert (Hperm := sort_by_perm Task.created_at (filter (status_matches status) session)).
    assert (Hsorted := sort_by_sorted Task.created_at (filter (status_matches status) session)).
    split; [apply Permutation_sym; exact Hperm |].
    split; [exact Hsorted |].
    split; [reflexivity |].
    split; [reflexivity |].
    split; [| split].
    + unfold sql_limit, sql_offset. destruct (limit_ <? 0).
      * now apply StronglySorted_skipn.
      * now apply StronglySorted_firstn, StronglySorted_skipn.
    + intros r Hin. unfold sql_limit, sql_offset in Hin.
      assert (Hr : In r (sort_by Task.created_at (filter (status_matches status) session))).
      { destruct (limit_ <? 0).
        - now apply skipn_In in Hin.
        - now apply firstn_In, skipn_In in Hin. }
      apply (Permutation_in r (Permutation_sym Hperm)) in Hr.
      apply filter_In in Hr. exact Hr.
    + intros Hoff Hlim. unfold sql_limit, sql_offset.
      replace (Z.to_nat offset_) with 0%nat by lia. simpl.
      destruct (limit_ <? 0) eqn:E; [reflexivity |].
      apply Z.ltb_ge in E. destruct Hlim as [Hlim | Hlim]; [lia |].
      apply firstn_all2.
      rewrite <- (Permutation_length Hperm).
      pose proof (filter_length_le (status_matches status) session). lia.
Qed.

Lemma get_tasks_filtered_sorted_paginated_witness :
  exists rows result,
    Permutation rows (filter (status_matches (Some false)) sample) /\
    StronglySorted (key_le Task.created_at) rows /\
    get_tasks sample 0 20 (Some false) = Ok result /\
    result = firstn 20 (skipn 0 rows) /\
    StronglySorted (key_le Task.created_at) result /\
    (forall r, In r result -> In r sample /\ status_matches (Some false) r = true) /\
    (0 <= 0 -> 20 < 0 \/ Z.of_nat (List.length sample) <= 20 -> result = rows).
Proof.
  apply (proj2 (get_tasks_filtered_sorted_paginated sample 0 20 (Some false)));
    reflexivity.
Defined.

(** C6.  A listing request whose [limit] is greater than 20 is rejected by
    input validation, whatever the table, and not answered with a clamped
    result; a request whose [limit] is at most 20 is accepted: it reaches the
    handler with that very limit, and is answered with a list whenever the
    limit and the offset are values the driver can bind. *)
Theorem limit_above_20_rejected
    (session : Table) (offset_ : option Z) (limit_ : Z) (status : option bool) :
  (20 < limit_ ->
   get_tasks_endpoint session offset_ (Some limit_) status = Raise RequestValidationError)
  /\
  (limit_ <= 20 ->
   get_tasks_endpoint session offset_ (Some limit_) status
   = get_tasks session (match offset_ with Some n => n | None => 0 end) limit_ status)
  /\
  (limit_ <= 20 -> in_int64 limit_ = true ->
   in_int64 (match offset_ with Some n => n | None => 0 end) = true ->
   exists rows, get_tasks_endpoint session offset_ (Some limit_) status = Ok rows).
Proof.
  unfold get_tasks_endpoint, validate_limit, validate_offset. split; [| split].
  - intros H. apply Z.leb_gt in H. destruct offset_; simpl; rewrite H; reflexivity.
  - intros H. apply Z.leb_le in H. destruct offset_; simpl; rewrite H; reflexivity.
  - intros H Hl Ho. apply Z.leb_le in H.
    destruct offset_ as [o |]; simpl in *; rewrite H; simpl;
      rewrite get_tasks_run, Hl, Ho; simpl; eexists; reflexivity.
Qed.

(** C7, as claimed, fails: no stored task has the id 2^63, and yet
    get-by-id of that id does not fail with Not Found; the driver cannot bind
    the id and the request ends in an [OverflowError]. *)
Lemma get_task_id_out_of_range :
  (forall r, In r sample -> Task.id r <> Some 9223372036854775808) /\
  get_task 9223372036854775808 sample = Raise OverflowError /\
  get_task 9223372036854775808 sample <> Raise (HTTPException 404 "Task not found").
Proof.
  split; [| split; [reflexivity | discriminate]].
  intros r [<- | [<- | [<- | []]]]; discriminate.
Qed.

(** C7, amended.  For every task id within SQLite's signed 64-bit range,
    get-by-id returns a stored task with that id whenever one exists (the
    only one, in a table that satisfies the invariant), and fails with 404
    Not Found exactly when no stored task has the id: in particular in a
    table where nothing was created, and after the task with that id was
    deleted.  For an id outside the range it raises [OverflowError]. *)
Theorem get_task_found_or_404 (task_id : Z) (session : Table) :
  (in_int64 task_id = false -> get_task task_id session = Raise OverflowError)
  /\
  (forall t, get_task task_id session = Ok t ->
             In t session /\ Task.id t = Some task_id)
  /\
  (in_int64 task_id = true ->
   (exists r, In r session /\ Task.id r = Some task_id) ->
   exists t, get_task task_id session = Ok t)
  /\
  (in_int64 task_id = true ->
   (get_task task_id session = Raise (HTTPException 404 "Task not found") <->
    (forall r, In r session -> Task.id r <> Some task_id)))
  /\
  (in_int64 task_id = true ->
   get_task task_id [] = Raise (HTTPException 404 "Task not found"))
  /\
  (forall c session', delete_task task_id session = Ok (c, session') ->
   get_task task_id session' = Raise (HTTPException 404 "Task not found"))
  /\
  (table_ok session ->
   forall t r, get_task task_id session = Ok t ->
               In r session -> Task.id r = Some task_id -> r = t).
Proof.
  assert (Hfound : forall t, get_task task_id session = Ok t ->
                             In t session /\ Task.id t = Some task_id).
  { intros t H. rewrite get_task_find in H.
    destruct (in_int64 task_id); [| discriminate H].
    destruct (find (has_id task_id) session) as [t' |] eqn:E; [| discriminate H].
    inversion H; subst. now apply find_has_id_Some in E. }
  split; [| split; [exact Hfound |]].
  { intros R. now rewrite get_task_find, R. }
  split; [| split; [| split; [| split]]].
  - intros R Hex. apply find_has_id_exists in Hex. destruct Hex as [t Ht].
    exists t. rewrite get_task_find, R. now rewrite Ht.
  - intros R. rewrite get_task_find, R. split.
    + destruct (find (has_id task_id) session) eqn:E; [discriminate |].
      intros _. now apply find_has_id_None.
    + intros Hnone. apply find_has_id_None in Hnone. now rewrite Hnone.
  - intros R. now rewrite get_task_find, R.
  - intros c session' Hdel. apply delete_task_Ok in Hdel.
    destruct Hdel as [_ [-> [R _]]]. now apply get_task_after_delete.
  - intros Hok t r Hget Hin Hid. destruct (Hfound t Hget) as [Hin' Hid'].
    exact (table_ok_unique session task_id r t Hok Hin Hin' Hid Hid').
Qed.

Lemma get_task_found_or_404_witness :
  (exists t, get_task 2 sample = Ok t) /\
  (get_task 7 sample = Raise (HTTPException 404 "Task not found") <->
   (forall r, In r sample -> Task.id r <> Some 7)).
Proof.
  split.
  - apply (proj1 (proj2 (proj2 (get_task_found_or_404 2 sample)))).
    + reflexivity.
    + exists eggs. split; [right; left; reflexivity | reflexivity].
  - apply (proj1 (proj2 (proj2 (proj2 (get_task_found_or_404 7 sample))))).
    reflexivity.
Defined.

(** C8, as claimed, fails: no stored task has the id 2^63, and yet the
    delete of that id does not fail with Not Found; the driver cannot bind
    the id and the request ends in an [OverflowError]. *)
Lemma delete_task_id_out_of_range :
  (forall r, In r sample -> Task.id r <> Some 9223372036854775808) /\
  delete_task 9223372036854775808 sample = Raise OverflowError /\
  delete_task 9223372036854775808 sample
  <> Raise (HTTPException 404 "Not Found: Requested task doesn't exist").
Proof.
  split; [| split; [reflexivity | discriminate]].
  intros r [<- | [<- | [<- | []]]]; discriminate.
Qed.

(** C8, amended.  For every task id within SQLite's signed 64-bit range,
    delete fails with 404 Not Found when no stored task has the id;
    otherwise it returns the confirmation value and a table that holds
    exactly the rows of the old one whose id differs, so that get-by-id for
    the deleted id then fails with 404 Not Found and get-by-id for every
    other id answers as before.  For an id outside the range it raises
    [OverflowError]. *)
Theorem delete_task_removes (task_id : Z) (session : Table) :
  (in_int64 task_id = false -> delete_task task_id session = Raise OverflowError)
  /\
  (in_int64 task_id = true ->
   (forall r, In r session -> Task.id r <> Some task_id) ->
   delete_task task_id session
   = Raise (HTTPException 404 "Not Found: Requested task doesn't exist"))
  /\
  (in_int64 task_id = true ->
   (exists r, In r session /\ Task.id r = Some task_id) ->
   exists session',
     delete_task task_id session = Ok (deleted_confirmation, session') /\
     get_task task_id session' = Raise (HTTPException 404 "Task not found") /\
     (forall r, In r session' <-> In r session /\ Task.id r <> Some task_id) /\
     (forall j, j <> task_id -> get_task j session' = get_task j session)).
Proof.
  rewrite delete_task_find. split; [| split].
  - intros R. now rewrite R.
  - intros R Hnone. apply find_has_id_None in Hnone. now rewrite R, Hnone.
  - intros R Hex. apply find_has_id_exists in Hex. destruct Hex as [t Ht].
    rewrite R, Ht. exists (sql_delete task_id session).
    split; [reflexivity |]. split; [| split].
    + now apply get_task_after_delete.
    + intros r. apply sql_delete_In.
    + intros j Hj. rewrite !get_task_find.
      destruct (in_int64 j); [| reflexivity]. now rewrite sql_delete_find_other.
Qed.

Lemma delete_task_removes_witness :
  delete_task 7 sample
  = Raise (HTTPException 404 "Not Found: Requested task doesn't exist") /\
  exists session',
    delete_task 2 sample = Ok (deleted_confirmation, session') /\
    get_task 2 session' = Raise (HTTPException 404 "Task not found") /\
    (forall r, In r session' <-> In r sample /\ Task.id r <> Some 2) /\
    (forall j, j <> 2 -> get_task j session' = get_task j sample).
Proof.
  split.
  - apply (proj1 (proj2 (delete_task_removes 7 sample))); [reflexivity |].
    intros r [<- | [<- | [<- | []]]]; discriminate.
  - apply (proj2 (proj2 (delete_task_removes 2 sample))).
    + reflexivity.
    + exists eggs. split; [right; left; reflexivity | reflexivity].
Defined.

Lemma get_task_created (session : Table) (t : Task.t) :
  Task.id t = Some (next_rowid session) ->
  get_task (next_rowid session) (session ++ [t])
  = if in_int64 (next_rowid session) then Ok t else Raise OverflowError.
Proof.
  intros Hid. rewrite get_task_find. destruct (in_int64 (next_rowid session)); [| reflexivity].
  rewrite find_app_fresh with (t := t); [reflexivity | | exact Hid].
  intros r Hin. now apply next_rowid_fresh.
Qed.

(** C9 (the code departs from the claim).  The claim: for every valid create
    payload, create followed by get-by-id of the returned id yields the task
    create returned.  The code: for the valid payload that supplies only a
    title, create raises (the defect of C1), whatever the title, the day and
    the table, so there is no task and no id to get.  Whenever create does
    answer, get-by-id of the returned id gives back the returned task. *)
Theorem create_title_only_no_roundtrip (today : date) (title : string) (session : Table) :
  (forall t session',
     post_tasks today (TaskCreateBody.mk (Present title) Absent Absent) session
     <> Ok (t, session'))
  /\
  (forall body t session',
     post_tasks today body session = Ok (t, session') ->
     exists task_id,
       Task.id t = Some task_id /\
       get_task task_id session'
       = (if in_int64 task_id then Ok t else Raise OverflowError) /\
       (ids_positive session -> rowids_below_max session -> in_int64 task_id = true)).
Proof.
  split.
  - intros t session' H. discriminate H.
  - intros body t session' H. apply post_tasks_Ok in H.
    destruct H as [ttl [c [d [_ [_ [_ [Ht ->]]]]]]].
    exists (next_rowid session). split; [rewrite Ht; reflexivity |].
    split; [| apply next_rowid_in_int64].
    apply get_task_created. rewrite Ht. reflexivity.
Qed.

Lemma create_title_only_no_roundtrip_witness :
  post_tasks 739200 (TaskCreateBody.mk (Present "buy milk") Absent Absent) sample
  = Raise ValidationError /\
  (forall t session',
     post_tasks 739200 (TaskCreateBody.mk (Present "buy milk") Absent Absent) sample
     <> Ok (t, session')).
Proof.
  split; [reflexivity |].
  exact (proj1 (create_title_only_no_roundtrip 739200 "buy milk" sample)).
Defined.

(** C10, as claimed, fails: a create request with the empty string as its
    title is accepted, and the table, whose titles were all non-empty, then
    holds a task with an empty title. *)
Lemma empty_title_is_stored :
  exists t session',
    post_tasks 739200 (TaskCreateBody.mk (Present "") Absent (Present 739200)) [milk]
    = Ok (t, session') /\
    In t session' /\ Task.title t = "" /\
    titles_nonempty [milk] /\ ~ titles_nonempty session'.
Proof.
  eexists. eexists. split; [reflexivity |].
  split; [right; left; reflexivity |]. split; [reflexivity |]. split.
  - constructor; [discriminate | constructor].
  - intros H. inversion H as [| x l _ H']; subst.
    inversion H' as [| x' l' Hx _]; subst. apply Hx. reflexivity.
Qed.

(** C10, amended.  Create requires a title, which may be any string, the
    empty one included, and stores it as sent.  A table in which no title is
    empty stays so under every operation whose payload does not carry the
    empty title: under create, full update and partial update with a
    non-empty title, and under every delete. *)
Theorem nonempty_titles_preserved (session : Table) :
  titles_nonempty session ->
  (forall today body,
     TaskCreateBody.title body = Absent \/ TaskCreateBody.title body = Null ->
     post_tasks today body session = Raise RequestValidationError)
  /\
  (forall today body t session',
     post_tasks today body session = Ok (t, session') ->
     TaskCreateBody.title body = Present (Task.title t) /\
     (Task.title t <> "" -> titles_nonempty session'))
  /\
  (forall task_id body t session',
     put_task task_id body session = Ok (t, session') ->
     UpdateTaskBody.title body <> Present "" -> titles_nonempty session')
  /\
  (forall task_id body t session',
     patch_task task_id body session = Ok (t, session') ->
     (forall b, body = Some b -> UpdateTaskBody.title b <> Present "") ->
     titles_nonempty session')
  /\
  (forall task_id c session',
     delete_task task_id session = Ok (c, session') -> titles_nonempty session').
Proof.
  intros Hs.
  assert (Hput : forall task_id body t session',
            put_task task_id body session = Ok (t, session') ->
            UpdateTaskBody.title body <> Present "" -> titles_nonempty session').
  { intros task_id body t session' H Hne. apply put_task_Ok in H.
    destruct H as [title [c [old [-> [_ [_ [_ ->]]]]]]]. simpl in Hne.
    apply titles_nonempty_sql_update; [congruence | exact Hs]. }
  split; [| split; [| split; [exact Hput | split]]].
  - intros today body [H | H]; unfold post_tasks, parse_TaskCreate; rewrite H; reflexivity.
  - intros today body t session' H. apply post_tasks_Ok in H.
    destruct H as [title [c [d [Ht [_ [_ [-> ->]]]]]]]. split; [exact Ht |].
    simpl. intros Hne. unfold titles_nonempty. apply Forall_app. split; [exact Hs |].
    constructor; [exact Hne | constructor].
  - intros task_id body t session' H Hne. apply patch_task_Ok in H.
    destruct H as [b [-> H]]. exact (Hput _ _ _ _ H (Hne b eq_refl)).
  - intros task_id c session' H. apply delete_task_Ok in H.
    destruct H as [_ [-> _]].
    unfold titles_nonempty, sql_delete in *. rewrite Forall_forall in *.
    intros r Hin. apply filter_In in Hin. now apply Hs.
Qed.

Lemma nonempty_titles_preserved_witness :
  titles_nonempty [milk; eggs] /\
  put_task 2 (UpdateTaskBody.mk (Present "buy six eggs") (Present false)) [milk; eggs]
  = Ok (Task.mk (Some 2) "buy six eggs" false 738990,
        [milk; Task.mk (Some 2) "buy six eggs" false 738990]) /\
  titles_nonempty [milk; Task.mk (Some 2) "buy six eggs" false 738990].
Proof.
  assert (H : titles_nonempty [milk; eggs]).
  { constructor; [discriminate |]. constructor; [discriminate | constructor]. }
  split; [exact H |]. split; [reflexivity |].
  apply (proj1 (proj2 (proj2 (nonempty_titles_preserved [milk; eggs] H)))
           2 (UpdateTaskBody.mk (Present "buy six eggs") (Present false))
           (Task.mk (Some 2) "buy six eggs" false 738990)).
  - reflexivity.
  - discriminate.
Defined.

(** ** Further properties of the handlers *)

(** *** Creating *)

(** X1.  A create request is answered with a task exactly when its payload
    carries a title, a creation date and a completed flag that is not null;
    it is rejected by input validation exactly when the title is missing or
    null, and fails inside the handler exactly when the title is there but
    the date is missing or null or the flag is null. *)
Theorem post_tasks_outcomes (today : date) (body : TaskCreateBody.t) (session : Table) :
  ((exists t session', post_tasks today body session = Ok (t, session')) <->
   (exists title created_at,
      TaskCreateBody.title body = Present title /\
      TaskCreateBody.created_at body = Present created_at /\
      TaskCreateBody.completed body <> Null))
  /\
  (post_tasks today body session = Raise RequestValidationError <->
   (TaskCreateBody.title body = Absent \/ TaskCreateBody.title body = Null))
  /\
  (post_tasks today body session = Raise ValidationError <->
   (exists title, TaskCreateBody.title body = Present title) /\
   (TaskCreateBody.completed body = Null \/
    TaskCreateBody.created_at body = Absent \/
    TaskCreateBody.created_at body = Null)).
Proof.
  destruct body as [[| | title] [| | c] [| | d]]; simpl;
    (split; [| split]); split;
    try (intros [t [s' H]]; discriminate H);
    try (intros [t [d' [H1 [H2 H3]]]]; try discriminate; congruence);
    try (intros [[t H] [H1 | [H1 | H1]]]; discriminate);
    try (intros [H | H]; discriminate);
    try discriminate;
    try (intros _; (left; reflexivity) || (right; reflexivity));
    try (intros _; split; [now eexists | tauto]);
    try (intros _; eexists; eexists; reflexivity);
    try (intros _; eexists; eexists; repeat split; discriminate);
    try reflexivity.
Qed.

(** X2.  The day on which a create request arrives never shows in its
    outcome: the response and the table are the same whatever [date.today()]
    returns, so a stored [created_at] is always the date the client sent. *)
Theorem post_tasks_ignores_today (today today' : date) (body : TaskCreateBody.t)
    (session : Table) :
  post_tasks today body session = post_tasks today' body session.
Proof.
  destruct body as [[| | title] [| | c] [| | d]]; reflexivity.
Qed.

(** X3.  A create request that is answered appends exactly one row, the task
    it returns, after the rows already stored, which stay as they were; the
    task's title and creation date are the payload's, its completed flag is
    the payload's, or false when the payload has none. *)
Theorem post_tasks_appends (today : date) (body : TaskCreateBody.t) (session : Table)
    (t : Task.t) (session' : Table) :
  post_tasks today body session = Ok (t, session') ->
  session' = session ++ [t] /\
  TaskCreateBody.title body = Present (Task.title t) /\
  TaskCreateBody.created_at body = Present (Task.created_at t) /\
  (TaskCreateBody.completed body = Present (Task.completed t) \/
   TaskCreateBody.completed body = Absent /\ Task.completed t = false).
Proof.
  intros H. apply post_tasks_Ok in H.
  destruct H as [title [c [d [Ht [Hc [Hd [-> Hs]]]]]]]. simpl.
  repeat split; assumption.
Qed.

Lemma post_tasks_appends_witness :
  post_tasks 739200 (TaskCreateBody.mk (Present "walk") (Present true) (Present 739150)) [milk]
  = Ok (Task.mk (Some 2) "walk" true 739150, [milk; Task.mk (Some 2) "walk" true 739150])
  /\
  [milk; Task.mk (Some 2) "walk" true 739150] = [milk] ++ [Task.mk (Some 2) "walk" true 739150].
Proof.
  split; [reflexivity |].
  apply (post_tasks_appends 739200
           (TaskCreateBody.mk (Present "walk") (Present true) (Present 739150)) [milk]).
  reflexivity.
Defined.

(** X4.  In a table whose ids are all below the largest 64-bit integer, the
    id a created task receives is greater than the id of every stored task;
    it is 1 in an empty table, and positive whenever the stored ids are. *)
Theorem post_tasks_id_above (today : date) (body : TaskCreateBody.t) (session : Table)
    (t : Task.t) (session' : Table) :
  rowids_below_max session ->
  post_tasks today body session = Ok (t, session') ->
  exists i,
    Task.id t = Some i /\
    (forall r j, In r session -> Task.id r = Some j -> j < i) /\
    (session = [] -> i = 1) /\
    (ids_positive session -> 0 < i).
Proof.
  intros Hbelow H. apply post_tasks_Ok in H.
  destruct H as [title [c [d [_ [_ [_ [-> _]]]]]]].
  exists (next_rowid session). split; [reflexivity |]. split; [| split].
  - intros r j Hin Hid. exact (next_rowid_above _ _ _ Hbelow Hin Hid).
  - intros ->. reflexivity.
  - apply next_rowid_positive.
Qed.

Lemma post_tasks_id_above_witness :
  (exists i,
     Task.id (Task.mk (Some 4) "walk" false 739150) = Some i /\
     (forall r j, In r sample -> Task.id r = Some j -> j < i) /\
     (sample = [] -> i = 1) /\
     (ids_positive sample -> 0 < i))
  /\
  (exists i,
     Task.id (Task.mk (Some 1) "walk" false 739150) = Some i /\
     (forall r j, In r (@nil Task.t) -> Task.id r = Some j -> j < i) /\
     (@nil Task.t = [] -> i = 1) /\
     (ids_positive [] -> 0 < i)).
Proof.
  split.
  - apply (post_tasks_id_above 739200
             (TaskCreateBody.mk (Present "walk") Absent (Present 739150)) sample
             (Task.mk (Some 4) "walk" false 739150)
             (sample ++ [Task.mk (Some 4) "walk" false 739150])
             rowids_below_max_sample).
    reflexivity.
  - apply (post_tasks_id_above 739200
             (TaskCreateBody.mk (Present "walk") Absent (Present 739150)) []
             (Task.mk (Some 1) "walk" false 739150)
             [Task.mk (Some 1) "walk" false 739150]).
    + intros r j [].
    + reflexivity.
Defined.

(** *** The table invariant along the life of the service *)

Lemma app_table_ok (today : date) (req : Request) (session : Table) :
  table_ok session -> table_ok (snd (app today req session)).
Proof.
  intros Hok. destruct req as [body | o l st | i | i body | i body | i]; simpl.
  - destruct (post_tasks today body session) as [[t s'] | e] eqn:E; simpl; [| exact Hok].
    unfold post_tasks in E. apply bind_Ok in E. destruct E as [task [_ E]].
    exact (table_ok_create _ _ _ _ _ Hok E).
  - destruct (get_tasks_endpoint session o l st); exact Hok.
  - destruct (get_task i session); exact Hok.
  - destruct (put_task i body session) as [[t s'] | e] eqn:E; simpl; [| exact Hok].
    apply put_task_Ok in E. destruct E as [title [c [old [_ [_ [_ [_ ->]]]]]]].
    now apply table_ok_sql_update.
  - destruct (patch_task i body session) as [[t s'] | e] eqn:E; simpl; [| exact Hok].
    apply patch_task_Ok in E. destruct E as [b [_ E]].
    apply put_task_Ok in E. destruct E as [title [c [old [_ [_ [_ [_ ->]]]]]]].
    now apply table_ok_sql_update.
  - destruct (delete_task i session) as [[c s'] | e] eqn:E; simpl; [| exact Hok].
    apply delete_task_Ok in E. destruct E as [_ [-> _]].
    now apply table_ok_sql_delete.
Qed.

Lemma serve_table_ok (reqs : list (date * Request)) (session : Table) :
  table_ok session -> table_ok (serve reqs session).
Proof.
  revert session. induction reqs as [| [today req] reqs IH]; intros session Hok; simpl.
  - exact Hok.
  - apply IH. now apply app_table_ok.
Qed.

(** X5.  Whatever requests the service has answered since the table was
    created empty, on whatever days, every stored task has a positive id and
    no two stored tasks share an id. *)
Theorem serve_from_empty_table_ok (reqs : list (date * Request)) :
  table_ok (serve reqs []) /\
  (forall r1 r2 i, In r1 (serve reqs []) -> In r2 (serve reqs []) ->
                   Task.id r1 = Some i -> Task.id r2 = Some i -> r1 = r2).
Proof.
  assert (H : table_ok (serve reqs [])).
  { apply serve_table_ok. split; constructor. }
  split; [exact H |].
  intros r1 r2 i H1 H2 E1 E2. exact (table_ok_unique _ i r1 r2 H H1 H2 E1 E2).
Qed.

(** X6.  No request changes the creation date of a stored task: in a table
    that satisfies the invariant, a task stored after the request under the
    id of a task stored before it has that task's creation date. *)
Theorem app_keeps_created_at (today : date) (req : Request) (session : Table)
    (r r' : Task.t) :
  table_ok session ->
  In r session -> In r' (snd (app today req session)) ->
  Task.id r = Task.id r' ->
  Task.created_at r' = Task.created_at r.
Proof.
  intros Hok Hr Hr' Hid.
  assert (Hsome : exists i, Task.id r = Some i).
  { destruct Hok as [Hpos _]. unfold ids_positive in Hpos.
    rewrite Forall_forall in Hpos. destruct (Hpos r Hr) as [i [Hi _]]. now exists i. }
  destruct Hsome as [i Hi].
  assert (Hsame : In r' session -> Task.created_at r' = Task.created_at r).
  { intros Hin. f_equal. apply (table_ok_unique session i r' r Hok Hin Hr); congruence. }
  assert (Hupd : forall j title c, In r' (sql_update j title c session) ->
                                   Task.created_at r' = Task.created_at r).
  { intros j title c Hin. unfold sql_update in Hin. apply in_map_iff in Hin.
    destruct Hin as [x [Hx Hin]].
    assert (Hxid : Task.id x = Task.id r') by (subst r'; destruct (has_id j x); reflexivity).
    assert (x = r) by (apply (table_ok_unique session i x r Hok Hin Hr); congruence).
    subst x r'. destruct (has_id j r); reflexivity. }
  destruct req as [body | o l st | j | j body | j body | j]; simpl in Hr'.
  - destruct (post_tasks today body session) as [[t s'] | e] eqn:E; simpl in Hr';
      [| now apply Hsame].
    apply post_tasks_Ok in E. destruct E as [title [c [d [_ [_ [_ [Ht ->]]]]]]].
    apply in_app_or in Hr'. destruct Hr' as [Hin | [Heq | []]]; [now apply Hsame |].
    exfalso. apply (next_rowid_fresh session r Hr). rewrite Hid, <- Heq, Ht. reflexivity.
  - destruct (get_tasks_endpoint session o l st); now apply Hsame.
  - destruct (get_task j session); now apply Hsame.
  - destruct (put_task j body session) as [[t s'] | e] eqn:E; simpl in Hr';
      [| now apply Hsame].
    apply put_task_Ok in E. destruct E as [title [c [old [_ [_ [_ [_ ->]]]]]]].
    exact (Hupd _ _ _ Hr').
  - destruct (patch_task j body session) as [[t s'] | e] eqn:E; simpl in Hr';
      [| now apply Hsame].
    apply patch_task_Ok in E. destruct E as [b [_ E]].
    apply put_task_Ok in E. destruct E as [title [c [old [_ [_ [_ [_ ->]]]]]]].
    exact (Hupd _ _ _ Hr').
  - destruct (delete_task j session) as [[c s'] | e] eqn:E; simpl in Hr';
      [| now apply Hsame].
    apply delete_task_Ok in E. destruct E as [_ [-> _]].
    apply sql_delete_In in Hr'. now apply Hsame.
Qed.

Lemma table_ok_milk_eggs : table_ok [milk; eggs].
Proof.
  split.
  - constructor; [exists 1; split; [reflexivity | lia] |].
    constructor; [exists 2; split; [reflexivity | lia] | constructor].
  - unfold rowids. simpl. constructor; [intros [H | []]; discriminate H |].
    constructor; [intros [] | constructor].
Qed.

Lemma app_keeps_created_at_witness :
  Task.created_at (Task.mk (Some 2) "buy six eggs" false 738990) = Task.created_at eggs.
Proof.
  apply (app_keeps_created_at 739200
           (PUT_task 2 (UpdateTaskBody.mk (Present "buy six eggs") (Present false)))
           [milk; eggs] eggs (Task.mk (Some 2) "buy six eggs" false 738990)
           table_ok_milk_eggs).
  - right; left; reflexivity.
  - right; left; reflexivity.
  - reflexivity.
Defined.

(** *** Updating *)

(** X7.  On a stored task, a PATCH request that carries a body does what the
    PUT request with that body does: same response, same table.  A body that
    PUT rejects is rejected by PATCH, and a body that PATCH accepts
    overwrites both the title and the completed flag. *)
Theorem patch_with_body_is_put (task_id : Z) (body : UpdateTaskBody.t) (session : Table) :
  (exists r, In r session /\ Task.id r = Some task_id) ->
  patch_task task_id (Some body) session = put_task task_id body session.
Proof.
  intros Hex. apply find_has_id_exists in Hex. destruct Hex as [old Hold].
  unfold patch_task, put_task. simpl.
  destruct (parse_UpdateTask body) as [u | e]; simpl; [| reflexivity].
  apply partial_update_found. rewrite session_get_find.
  destruct (in_int64 task_id); [rewrite Hold |]; discriminate.
Qed.

Lemma patch_with_body_is_put_witness :
  (exists r, In r sample /\ Task.id r = Some 2) /\
  patch_task 2 (Some (UpdateTaskBody.mk (Present "buy six eggs") (Present false))) sample
  = put_task 2 (UpdateTaskBody.mk (Present "buy six eggs") (Present false)) sample.
Proof.
  assert (H : exists r, In r sample /\ Task.id r = Some 2).
  { exists eggs. split; [right; left; reflexivity | reflexivity]. }
  split; [exact H |].
  exact (patch_with_body_is_put 2
           (UpdateTaskBody.mk (Present "buy six eggs") (Present false)) sample H).
Defined.

Lemma sql_update_twice (i : Z) (title : string) (completed : bool) (session : Table) :
  sql_update i title completed (sql_update i title completed session)
  = sql_update i title completed session.
Proof.
  unfold sql_update. rewrite map_map. apply map_ext. intros r.
  destruct (has_id i r) eqn:E.
  - assert (E' : has_id i (Task.set_completed completed (Task.set_title title r)) = true)
      by exact E.
    rewrite E'. reflexivity.
  - rewrite E. reflexivity.
Qed.

(** X8.  A full update is idempotent: sending again a PUT request that was
    answered gives the same response and leaves the table as the first one
    left it. *)
Theorem put_task_idempotent (task_id : Z) (body : UpdateTaskBody.t) (session : Table)
    (t : Task.t) (session' : Table) :
  put_task task_id body session = Ok (t, session') ->
  put_task task_id body session' = Ok (t, session').
Proof.
  intros H. apply put_task_Ok in H.
  destruct H as [title [c [old [-> [R [Hold [-> ->]]]]]]].
  rewrite put_task_valid, R, sql_update_find_same, Hold. simpl.
  now rewrite sql_update_twice.
Qed.

Lemma put_task_idempotent_witness :
  put_task 2 (UpdateTaskBody.mk (Present "buy six eggs") (Present false))
           [milk; Task.mk (Some 2) "buy six eggs" false 738990; bread]
  = Ok (Task.mk (Some 2) "buy six eggs" false 738990,
        [milk; Task.mk (Some 2) "buy six eggs" false 738990; bread]).
Proof.
  apply (put_task_idempotent 2
           (UpdateTaskBody.mk (Present "buy six eggs") (Present false)) sample).
  reflexivity.
Defined.

(** X9.  The four outcomes of a PUT request.  It is rejected by input
    validation exactly when its body lacks the title or the completed flag
    (absent or null), whatever the id.  With a complete body, it raises
    [OverflowError] exactly when the id is outside SQLite's signed 64-bit
    range, fails with 404 Not Found exactly when the id is within the range
    and no stored task has it, and is answered with a task exactly when the
    id is within the range and a stored task has it. *)
Theorem put_task_outcomes (task_id : Z) (body : UpdateTaskBody.t) (session : Table) :
  (put_task task_id body session = Raise RequestValidationError <->
   ~ (exists title completed, body = UpdateTaskBody.mk (Present title) (Present completed)))
  /\
  (put_task task_id body session = Raise OverflowError <->
   (exists title completed, body = UpdateTaskBody.mk (Present title) (Present completed)) /\
   in_int64 task_id = false)
  /\
  (put_task task_id body session
   = Raise (HTTPException 404 "Not Found: Requested task doesn't exist ") <->
   (exists title completed, body = UpdateTaskBody.mk (Present title) (Present completed)) /\
   in_int64 task_id = true /\
   (forall r, In r session -> Task.id r <> Some task_id))
  /\
  ((exists t session', put_task task_id body session = Ok (t, session')) <->
   (exists title completed, body = UpdateTaskBody.mk (Present title) (Present completed)) /\
   in_int64 task_id = true /\
   (exists r, In r session /\ Task.id r = Some task_id)).
Proof.
  assert (Hinvalid : ~ (exists title c, body = UpdateTaskBody.mk (Present title) (Present c)) ->
                     put_task task_id body session = Raise RequestValidationError).
  { intros Hn. destruct body as [[| | title] [| | c]]; try reflexivity.
    exfalso. apply Hn. now exists title, c. }
  assert (Hcomplete : forall e, e <> RequestValidationError ->
            put_task task_id body session = Raise e ->
            exists title c, body = UpdateTaskBody.mk (Present title) (Present c)).
  { intros e He H. destruct body as [[| | title] [| | c]];
      try (inversion H; congruence). now exists title, c. }
  split; [| split; [| split]]; split.
  - intros H [title [c ->]]. rewrite put_task_valid in H.
    destruct (in_int64 task_id); [| discriminate H].
    destruct (find (has_id task_id) session); discriminate H.
  - exact Hinvalid.
  - intros H.
    assert (Hb := Hcomplete OverflowError ltac:(intros X; discriminate X) H).
    split; [exact Hb |]. destruct Hb as [title [c ->]].
    rewrite put_task_valid in H. destruct (in_int64 task_id); [| reflexivity].
    destruct (find (has_id task_id) session); discriminate H.
  - intros [[title [c ->]] R]. now rewrite put_task_valid, R.
  - intros H.
    assert (Hb := Hcomplete (HTTPException 404 "Not Found: Requested task doesn't exist ")
                            ltac:(intros X; discriminate X) H).
    split; [exact Hb |]. destruct Hb as [title [c ->]].
    rewrite put_task_valid in H. destruct (in_int64 task_id); [| discriminate H].
    split; [reflexivity |].
    destruct (find (has_id task_id) session) eqn:E; [discriminate H |].
    now apply find_has_id_None.
  - intros [[title [c ->]] [R Hnone]]. rewrite put_task_valid, R.
    apply find_has_id_None in Hnone. now rewrite Hnone.
  - intros [t [s' H]]. apply put_task_Ok in H.
    destruct H as [title [c [old [-> [R [Hold _]]]]]]. split; [now exists title, c |].
    split; [exact R |]. apply find_has_id_Some in Hold. now exists old.
  - intros [[title [c ->]] [R Hex]]. rewrite put_task_valid, R.
    apply find_has_id_exists in Hex. destruct Hex as [old ->]. eexists. eexists. reflexivity.
Qed.

(** *** Deleting *)

(** X10.  Delete is not idempotent: once a DELETE request was answered, the
    same request on the table it left fails with 404 Not Found. *)
Theorem delete_task_twice (task_id : Z) (session : Table)
    (c : list PyValue) (session' : Table) :
  delete_task task_id session = Ok (c, session') ->
  delete_task task_id session'
  = Raise (HTTPException 404 "Not Found: Requested task doesn't exist").
Proof.
  intros H. apply delete_task_Ok in H. destruct H as [_ [-> [R _]]].
  rewrite delete_task_find, R.
  rewrite (proj2 (find_has_id_None task_id (sql_delete task_id session))); [reflexivity |].
  intros r Hin. now apply sql_delete_In in Hin.
Qed.

Lemma delete_task_twice_witness :
  delete_task 2 [milk; bread]
  = Raise (HTTPException 404 "Not Found: Requested task doesn't exist").
Proof.
  apply (delete_task_twice 2 sample deleted_confirmation). reflexivity.
Defined.

Lemma sql_delete_fresh (i : Z) (session : Table) :
  (forall r, In r session -> Task.id r <> Some i) -> sql_delete i session = session.
Proof.
  intros H. unfold sql_delete. induction session as [| x l IH]; simpl; [reflexivity |].
  rewrite (proj2 (has_id_false i x)) by (apply H; now left). simpl.
  f_equal. apply IH. intros r Hr. apply H. now right.
Qed.

Lemma sql_delete_app (i : Z) (s1 s2 : Table) :
  sql_delete i (s1 ++ s2) = sql_delete i s1 ++ sql_delete i s2.
Proof. unfold sql_delete. apply filter_app. Qed.

Lemma create_then_delete (today : date) (body : TaskCreateBody.t) (session : Table)
    (t : Task.t) (session' : Table) :
  post_tasks today body session = Ok (t, session') ->
  Task.id t = Some (next_rowid session) /\
  delete_task (next_rowid session) session'
  = if in_int64 (next_rowid session)
    then Ok (deleted_confirmation, session)
    else Raise OverflowError.
Proof.
  intros H. apply post_tasks_Ok in H.
  destruct H as [title [c [d [_ [_ [_ [Ht ->]]]]]]].
  split; [rewrite Ht; reflexivity |].
  assert (Hfresh : forall r, In r session -> Task.id r <> Some (next_rowid session))
    by (intros r Hr; now apply next_rowid_fresh).
  assert (Hid : Task.id t = Some (next_rowid session)) by (rewrite Ht; reflexivity).
  rewrite delete_task_find, (find_app_fresh _ _ t Hfresh Hid).
  rewrite sql_delete_app, (sql_delete_fresh _ _ Hfresh).
  unfold sql_delete. simpl. rewrite (proj2 (has_id_true _ _) Hid). simpl.
  now rewrite app_nil_r.
Qed.

(** X11.  Deleting a task right after it was created gives back the table as
    it was before the create request, row for row.  (The id create returns
    is one the driver can bind whenever the stored ids are positive and below
    the largest 64-bit integer; an id it could not bind would make the
    delete raise [OverflowError].) *)
Theorem create_then_delete_restores (today : date) (body : TaskCreateBody.t)
    (session : Table) (t : Task.t) (session' : Table) :
  post_tasks today body session = Ok (t, session') ->
  exists task_id,
    Task.id t = Some task_id /\
    delete_task task_id session'
    = (if in_int64 task_id
       then Ok (deleted_confirmation, session)
       else Raise OverflowError) /\
    (ids_positive session -> rowids_below_max session -> in_int64 task_id = true).
Proof.
  intros H. exists (next_rowid session).
  destruct (create_then_delete _ _ _ _ _ H) as [H1 H2].
  split; [exact H1 |]. split; [exact H2 | apply next_rowid_in_int64].
Qed.

Lemma create_then_delete_restores_witness :
  exists task_id,
    Task.id (Task.mk (Some 4) "walk" false 739150) = Some task_id /\
    delete_task task_id (sample ++ [Task.mk (Some 4) "walk" false 739150])
    = Ok (deleted_confirmation, sample).
Proof.
  destruct (create_then_delete_restores 739200
              (TaskCreateBody.mk (Present "walk") Absent (Present 739150)) sample
              (Task.mk (Some 4) "walk" false 739150)
              (sample ++ [Task.mk (Some 4) "walk" false 739150]) eq_refl)
    as [task_id [Hid [Hdel Hrange]]].
  exists task_id. split; [exact Hid |].
  rewrite (Hrange ids_positive_sample rowids_below_max_sample) in Hdel. exact Hdel.
Defined.

(** X12.  Ids are handed out again: in a table whose ids are all below the
    largest 64-bit integer, when the task created last is deleted, the next
    task created receives the id the deleted one had. *)
Theorem deleted_id_is_reused (today today' : date) (body body' : TaskCreateBody.t)
    (session session1 session2 session3 : Table) (t t' : Task.t)
    (task_id : Z) (c : list PyValue) :
  rowids_below_max session ->
  post_tasks today body session = Ok (t, session1) ->
  Task.id t = Some task_id ->
  delete_task task_id session1 = Ok (c, session2) ->
  post_tasks today' body' session2 = Ok (t', session3) ->
  Task.id t' = Some task_id /\
  (forall r j, In r session2 -> Task.id r = Some j -> j < task_id).
Proof.
  intros Hbelow Hcreate Hid Hdelete Hcreate'.
  destruct (create_then_delete _ _ _ _ _ Hcreate) as [Hid' Hdel].
  rewrite Hid in Hid'. inversion Hid'; subst task_id.
  rewrite Hdel in Hdelete.
  destruct (in_int64 (next_rowid session)); [| discriminate Hdelete].
  inversion Hdelete; subst session2.
  apply post_tasks_Ok in Hcreate'.
  destruct Hcreate' as [title [c' [d [_ [_ [_ [-> _]]]]]]]. split; [reflexivity |].
  intros r j Hin Hj. exact (next_rowid_above _ _ _ Hbelow Hin Hj).
Qed.

Lemma deleted_id_is_reused_witness :
  Task.id (Task.mk (Some 4) "run" true 739160) = Some 4 /\
  (forall r j, In r sample -> Task.id r = Some j -> j < 4).
Proof.
  apply (deleted_id_is_reused 739200 739201
           (TaskCreateBody.mk (Present "walk") Absent (Present 739150))
           (TaskCreateBody.mk (Present "run") (Present true) (Present 739160))
           sample (sample ++ [Task.mk (Some 4) "walk" false 739150]) sample
           (sample ++ [Task.mk (Some 4) "run" true 739160])
           (Task.mk (Some 4) "walk" false 739150) (Task.mk (Some 4) "run" true 739160)
           4 deleted_confirmation rowids_below_max_sample); reflexivity.
Defined.

Lemma sql_delete_length (i : Z) (session : Table) (t : Task.t) :
  table_ok session -> In t session -> Task.id t = Some i ->
  List.length session = S (List.length (sql_delete i session)).
Proof.
  intros Hok. induction session as [| x l IH]; intros Hin Hid; [destruct Hin |].
  assert (Hl : table_ok l).
  { destruct Hok as [Hpos Hnd]. split; [now inversion Hpos |].
    rewrite rowids_cons in Hnd. destruct (Task.id x); [now inversion Hnd | exact Hnd]. }
  change (sql_delete i (x :: l))
    with (if negb (has_id i x) then x :: sql_delete i l else sql_delete i l).
  destruct (has_id i x) eqn:E; simpl negb; cbv iota.
  - apply has_id_true in E. simpl. f_equal. symmetry. f_equal. apply sql_delete_fresh.
    intros r Hr Er.
    assert (r = x) by (apply (table_ok_unique (x :: l) i r x Hok);
                       [now right | now left | exact Er | exact E]).
    subst r. destruct Hok as [_ Hnd]. rewrite rowids_cons, E in Hnd.
    inversion Hnd; subst. apply H1. exact (rowids_In _ _ _ Hr E).
  - simpl. f_equal. apply IH; [exact Hl | | exact Hid].
    destruct Hin as [-> | Hin]; [| exact Hin].
    apply has_id_false in E. contradiction.
Qed.

(** X13.  In a table that satisfies the invariant, a DELETE request that is
    answered removes exactly one row. *)
Theorem delete_drops_one_row (task_id : Z) (session : Table)
    (c : list PyValue) (session' : Table) :
  table_ok session ->
  delete_task task_id session = Ok (c, session') ->
  List.length session = S (List.length session').
Proof.
  intros Hok H. apply delete_task_Ok in H. destruct H as [_ [-> [_ [t Ht]]]].
  apply find_has_id_Some in Ht. destruct Ht as [Hin Hid].
  exact (sql_delete_length _ _ t Hok Hin Hid).
Qed.

Lemma delete_drops_one_row_witness :
  List.length [milk; eggs] = S (List.length [milk]).
Proof.
  apply (delete_drops_one_row 2 [milk; eggs] deleted_confirmation [milk]
           table_ok_milk_eggs).
  reflexivity.
Defined.

(** *** Listing *)


Lemma filter_split_perm (f : Task.t -> bool) (l : list Task.t) :
  Permutation (filter f l ++ filter (fun r => negb (f r)) l) l.
Proof.
  induction l as [| x l IH]; simpl; [constructor |].
  destruct (f x); simpl.
  - now constructor.
  - apply Permutation_sym, Permutation_cons_app, Permutation_sym, IH.
Qed.


Lemma get_tasks_Ok (session : Table) (offset_ limit_ : Z) (status : option bool)
    (rows : list Task.t) :
  get_tasks session offset_ limit_ status = Ok rows ->
  in_int64 limit_ = true /\ in_int64 offset_ = true /\
  rows = sql_limit limit_ (sql_offset offset_
           (sort_by Task.created_at (filter (status_matches status) session))).
Proof.
  rewrite get_tasks_run.
  destruct (in_int64 limit_); [| discriminate].
  destruct (in_int64 offset_); [| discriminate].
  simpl. intros H. inversion H. repeat split.
Qed.

Lemma get_tasks_In (session : Table) (offset_ limit_ : Z) (status : option bool)
    (rows : list Task.t) (r : Task.t) :
  get_tasks session offset_ limit_ status = Ok rows ->
  In r rows ->
  In r session /\ status_matches status r = true.
Proof.
  intros H Hin. apply get_tasks_Ok in H. destruct H as [_ [_ ->]].
  unfold sql_limit, sql_offset in Hin.
  assert (Hr : In r (sort_by Task.created_at (filter (status_matches status) session))).
  { destruct (limit_ <? 0).
    - now apply skipn_In in Hin.
    - now apply firstn_In, skipn_In in Hin. }
  apply (Permutation_in r (Permutation_sym (sort_by_perm Task.created_at _))) in Hr.
  now apply filter_In in Hr.
Qed.

Lemma get_tasks_full (session : Table) (offset_ limit_ : Z) (status : option bool) :
  offset_ <= 0 -> limit_ < 0 ->
  in_int64 offset_ = true -> in_int64 limit_ = true ->
  get_tasks session offset_ limit_ status
  = Ok (sort_by Task.created_at (filter (status_matches status) session)).
Proof.
  intros Ho Hl Ro Rl. rewrite get_tasks_run, Ro, Rl. simpl.
  unfold sql_limit, sql_offset.
  apply Z.ltb_lt in Hl. rewrite Hl.
  replace (Z.to_nat offset_) with 0%nat by lia. reflexivity.
Qed.

(** X14.  A listing request that is accepted with its limit omitted or not
    negative is answered with at most as many tasks as the limit, 20 when it
    is omitted: never more than 20. *)
Theorem get_tasks_endpoint_at_most_20
    (session : Table) (offset_ limit_ : option Z) (status : option bool)
    (rows : list Task.t) :
  get_tasks_endpoint session offset_ limit_ status = Ok rows ->
  match limit_ with Some n => 0 <= n | None => True end ->
  (List.length rows <= Z.to_nat (match limit_ with Some n => n | None => 20 end))%nat /\
  (List.length rows <= 20)%nat.
Proof.
  unfold get_tasks_endpoint, validate_offset, validate_limit. intros H Hn.
  set (o := match offset_ with Some n => n | None => 0 end).
  assert (Hrun : forall n, 0 <= n -> n <= 20 ->
            get_tasks session o n status = Ok rows ->
            (List.length rows <= Z.to_nat n)%nat /\ (List.length rows <= 20)%nat).
  { intros n H0 H20 Hget. apply get_tasks_Ok in Hget. destruct Hget as [_ [_ ->]].
    unfold sql_limit.
    destruct (n <? 0) eqn:E; [apply Z.ltb_lt in E; lia |].
    pose proof (firstn_le_length (Z.to_nat n)
                  (sql_offset o (sort_by Task.created_at
                                   (filter (status_matches status) session)))).
    split; lia. }
  destruct limit_ as [n |].
  - destruct (n <=? 20) eqn:E.
    + apply Z.leb_le in E. destruct offset_; simpl in H; now apply Hrun.
    + destruct offset_; simpl in H; discriminate H.
  - destruct offset_; simpl in H; apply Hrun; (lia || exact H).
Qed.

Lemma get_tasks_endpoint_at_most_20_witness :
  ((List.length [eggs; milk] <= Z.to_nat 2)%nat /\ (List.length [eggs; milk] <= 20)%nat)
  /\
  ((List.length [eggs; milk; bread] <= Z.to_nat 20)%nat /\
   (List.length [eggs; milk; bread] <= 20)%nat).
Proof.
  split.
  - apply (get_tasks_endpoint_at_most_20 sample None (Some 2) None [eggs; milk]).
    + reflexivity.
    + simpl. lia.
  - apply (get_tasks_endpoint_at_most_20 sample None None None [eggs; milk; bread]).
    + reflexivity.
    + exact I.
Defined.





(** X17.  The two status filters split the listing: without a window, and
    with an offset and a limit the driver can bind, the tasks listed as
    completed together with the tasks listed as not completed are the tasks
    listed without a status, each once. *)
Theorem get_tasks_status_partition (session : Table) (offset_ limit_ : Z) :
  offset_ <= 0 -> limit_ < 0 ->
  in_int64 offset_ = true -> in_int64 limit_ = true ->
  exists completed pending every,
    get_tasks session offset_ limit_ (Some true) = Ok completed /\
    get_tasks session offset_ limit_ (Some false) = Ok pending /\
    get_tasks session offset_ limit_ None = Ok every /\
    Permutation (completed ++ pending) every.
Proof.
  intros Ho Hl Ro Rl. rewrite !get_tasks_full by assumption.
  eexists. eexists. eexists. repeat (split; [reflexivity |]).
  apply perm_trans with (filter (status_matches (Some true)) session
                         ++ filter (status_matches (Some false)) session).
  - apply Permutation_app; apply Permutation_sym, sort_by_perm.
  - apply perm_trans with (filter (status_matches None) session); [| apply sort_by_perm].
    replace (filter (status_matches None) session) with session.
    + rewrite (filter_ext (status_matches (Some false))
                 (fun r => negb (status_matches (Some true) r))).
      * apply filter_split_perm.
      * intros r. simpl. destruct (Task.completed r); reflexivity.
    + symmetry. apply forallb_filter_id. apply forallb_forall. reflexivity.
Qed.

Lemma get_tasks_status_partition_witness :
  exists completed pending every,
    get_tasks sample 0 (-1) (Some true) = Ok completed /\
    get_tasks sample 0 (-1) (Some false) = Ok pending /\
    get_tasks sample 0 (-1) None = Ok every /\
    Permutation (completed ++ pending) every.
Proof.
  apply (get_tasks_status_partition sample 0 (-1)); (lia || reflexivity).
Defined.

(** X18.  Listing and get-by-id agree: in a table that satisfies the
    invariant, every task a listing returns has an id, and get-by-id on that
    id returns that very task.  (A stored id is one the driver can bind; on
    one it could not bind, get-by-id would raise [OverflowError].) *)
Theorem listed_task_is_gettable
    (session : Table) (offset_ limit_ : Z) (status : option bool)
    (rows : list Task.t) (r : Task.t) :
  table_ok session ->
  get_tasks session offset_ limit_ status = Ok rows ->
  In r rows ->
  exists task_id,
    Task.id r = Some task_id /\
    get_task task_id session = if in_int64 task_id then Ok r else Raise OverflowError.
Proof.
  intros Hok Hget Hin. apply (get_tasks_In _ _ _ _ _ _ Hget) in Hin.
  destruct Hin as [Hin _].
  pose proof Hok as [Hpos _]. unfold ids_positive in Hpos. rewrite Forall_forall in Hpos.
  destruct (Hpos r Hin) as [i [Hi _]]. exists i. split; [exact Hi |].
  rewrite get_task_find. destruct (in_int64 i); [| reflexivity].
  destruct (find_has_id_exists i session) as [r' Hr']; [now exists r |].
  rewrite Hr'. apply find_has_id_Some in Hr'. destruct Hr' as [Hin' Hi'].
  f_equal. exact (table_ok_unique session i r' r Hok Hin' Hin Hi' Hi).
Qed.

Lemma listed_task_is_gettable_witness :
  exists task_id, Task.id eggs = Some task_id /\ get_task task_id [milk; eggs] = Ok eggs.
Proof.
  destruct (listed_task_is_gettable [milk; eggs] 0 20 None [eggs; milk] eggs
              table_ok_milk_eggs eq_refl (or_introl eq_refl)) as [task_id [Hid Hget]].
  exists task_id. split; [exact Hid |].
  assert (E : task_id = 2) by (simpl in Hid; congruence).
  subst task_id. exact Hget.
Defined.



(** X20.  A task that was just created does not show in a listing filtered
    on the status it does not match: for every offset and limit, that
    listing is answered after the create as it was before. *)
Theorem get_tasks_after_create_other_status
    (today : date) (body : TaskCreateBody.t) (session : Table)
    (t : Task.t) (session' : Table) (offset_ limit_ : Z) (status : option bool) :
  post_tasks today body session = Ok (t, session') ->
  status_matches status t = false ->
  get_tasks session' offset_ limit_ status = get_tasks session offset_ limit_ status.
Proof.
  intros H Hm. apply post_tasks_Ok in H.
  destruct H as [title [c [d [_ [_ [_ [_ ->]]]]]]].
  rewrite !get_tasks_run, filter_app. simpl. rewrite Hm. now rewrite app_nil_r.
Qed.

Lemma get_tasks_after_create_other_status_witness :
  get_tasks (sample ++ [Task.mk (Some 4) "walk" false 739150]) 0 20 (Some true)
  = get_tasks sample 0 20 (Some true).
Proof.
  apply (get_tasks_after_create_other_status 739200
           (TaskCreateBody.mk (Present "walk") Absent (Present 739150)) sample
           (Task.mk (Some 4) "walk" false 739150)); reflexivity.
Defined.

(** X21.  A task that was just created shows in the listings whose status it
    matches: without a window, and with an offset and a limit the driver can
    bind, such a listing holds after the create the new task next to the
    tasks it held before. *)
Theorem get_tasks_after_create_same_status
    (today : date) (body : TaskCreateBody.t) (session : Table)
    (t : Task.t) (session' : Table) (offset_ limit_ : Z) (status : option bool) :
  post_tasks today body session = Ok (t, session') ->
  status_matches status t = true ->
  offset_ <= 0 -> limit_ < 0 ->
  in_int64 offset_ = true -> in_int64 limit_ = true ->
  exists before after,
    get_tasks session offset_ limit_ status = Ok before /\
    get_tasks session' offset_ limit_ status = Ok after /\
    Permutation after (t :: before).
Proof.
  intros H Hm Ho Hl Ro Rl. apply post_tasks_Ok in H.
  destruct H as [title [c [d [_ [_ [_ [_ ->]]]]]]].
  rewrite !get_tasks_full by assumption.
  eexists. eexists. split; [reflexivity |]. split; [reflexivity |].
  rewrite filter_app. simpl. rewrite Hm.
  apply perm_trans with (filter (status_matches status) session ++ [t]).
  - apply Permutation_sym, sort_by_perm.
  - apply perm_trans with (t :: filter (status_matches status) session).
    + apply Permutation_sym, Permutation_cons_append.
    + apply perm_skip, sort_by_perm.
Qed.

Lemma get_tasks_after_create_same_status_witness :
  exists before after,
    get_tasks sample 0 (-1) (Some false) = Ok before /\
    get_tasks (sample ++ [Task.mk (Some 4) "walk" false 739150]) 0 (-1) (Some false)
    = Ok after /\
    Permutation after (Task.mk (Some 4) "walk" false 739150 :: before).
Proof.
  apply (get_tasks_after_create_same_status 739200
           (TaskCreateBody.mk (Present "walk") Absent (Present 739150)) sample
           (Task.mk (Some 4) "walk" false 739150)); (reflexivity || lia).
Defined.
